(** * oxo: risk aggregation, tracing mixin and the serve_app mutations

    A shallow embedding of
      - [ostorlab/serve_app/export_utils.py]   (module [ExportUtils]),
      - [ostorlab/agent/mixins/agent_open_telemetry_mixin.py] (module [Telemetry]),
      - [ostorlab/serve_app/oxo.py]            (module [Oxo]),
    with Python exceptions as an explicit result type and mutable state
    (database session, tracer, runtime) threaded explicitly. *)

From Stdlib Require Import ZArith Ascii String List Permutation Lia.
From stdpp Require Import gmap strings list pretty.

Local Open Scope string_scope.
Local Open Scope list_scope.
Local Open Scope Z_scope.

(** ** Python values, exceptions and results *)

Module Py.

(** The exception classes the three modules raise or catch. *)
Inductive exn : Type :=
| GraphQLError (msg : string)
| HTTPError (msg : string)
| OstorlabError (msg : string)
| AgentDetailsNotFound (msg : string)
| NotImplementedError (msg : string)
| AttributeError (attr : string)
| KeyError (key : string)
| IndexError
| ValueError (msg : string)
| OSError (msg : string).

(** [str(e)] as used by the f-strings of oxo.py. *)
Definition str_exn (e : exn) : string :=
  match e with
  | GraphQLError m | HTTPError m | OstorlabError m | AgentDetailsNotFound m
  | NotImplementedError m | AttributeError m | KeyError m | ValueError m
  | OSError m => m
  | IndexError => "list index out of range"
  end.

(** [except exceptions.OstorlabError]: the class and its subclasses. *)
Definition is_OstorlabError (e : exn) : bool :=
  match e with
  | OstorlabError _ | AgentDetailsNotFound _ => true
  | _ => false
  end.

Inductive result (A : Type) : Type :=
| Returns (a : A)
| Raises (e : exn).
Arguments Returns {A} a.
Arguments Raises {A} e.

Definition bind {A B} (r : result A) (k : A -> result B) : result B :=
  match r with
  | Returns a => k a
  | Raises e => Raises e
  end.

(** Computations over a mutable world [W] that may raise. *)
Definition exec (W A : Type) : Type := W -> result A * W.

Definition ret {W A} (a : A) : exec W A := fun w => (Returns a, w).
Definition raise {W A} (e : exn) : exec W A := fun w => (Raises e, w).
Definition bindx {W A B} (m : exec W A) (k : A -> exec W B) : exec W B :=
  fun w => match m w with
           | (Returns a, w') => k a w'
           | (Raises e, w') => (Raises e, w')
           end.
(** [try: m except <handles>: h] *)
Definition try_except {W A} (m : exec W A) (handles : exn -> bool)
           (h : exn -> exec W A) : exec W A :=
  fun w => match m w with
           | (Raises e, w') => if handles e then h e w' else (Raises e, w')
           | r => r
           end.

(** [str.lower] on ASCII text. *)
Definition lower_ascii (c : ascii) : ascii :=
  let n := nat_of_ascii c in
  if (Nat.leb 65 n && Nat.leb n 90)%bool then ascii_of_nat (n + 32) else c.

Fixpoint lower (s : string) : string :=
  match s with
  | EmptyString => EmptyString
  | String c s' => String (lower_ascii c) (lower s')
  end.

End Py.

Notation "'let!' x ':=' m 'in' k" := (Py.bindx m (fun x => k))
  (at level 10, x name, m at level 100, k at level 200).
Notation "'do!' m 'in' k" := (Py.bindx m (fun _ => k))
  (at level 10, m at level 100, k at level 200).

(** ** serve_app/export_utils.py *)

Module ExportUtils.
Import Py.

(** [common.RiskRatingEnum], with the members [RISK_RATINGS_ORDER] lists. *)
Inductive RiskRatingEnum : Type :=
| CRITICAL | HIGH | MEDIUM | LOW | POTENTIALLY | HARDENING | SECURE
| IMPORTANT | INFO.

Definition all_ratings : list RiskRatingEnum :=
  [CRITICAL; HIGH; MEDIUM; LOW; POTENTIALLY; HARDENING; SECURE; IMPORTANT; INFO].

(** The [.name] of an enum member. *)
Definition name (r : RiskRatingEnum) : string :=
  match r with
  | CRITICAL => "CRITICAL" | HIGH => "HIGH" | MEDIUM => "MEDIUM"
  | LOW => "LOW" | POTENTIALLY => "POTENTIALLY" | HARDENING => "HARDENING"
  | SECURE => "SECURE" | IMPORTANT => "IMPORTANT" | INFO => "INFO"
  end.

Definition RISK_RATINGS_ORDER : gmap string Z :=
  list_to_map
    [ (name CRITICAL, 8); (name HIGH, 7); (name MEDIUM, 6); (name LOW, 5);
      (name POTENTIALLY, 4); (name HARDENING, 3); (name SECURE, 2);
      (name IMPORTANT, 1); (name INFO, 0) ].

Record Scan : Type := { scan_id : Z; scan_title : string }.

Record Vulnerability : Type := {
  vuln_id : Z;
  vuln_scan_id : Z;
  vuln_title : string;
  risk_rating : RiskRatingEnum
}.

(** The tables [_compute_risk_rating] reads through the session. *)
Record Database : Type := {
  scans : list Scan;
  vulnerabilities : list Vulnerability
}.

(** [RISK_RATINGS_ORDER[vuln.risk_rating.name]], a [KeyError] on a miss. *)
Definition rank_key (v : Vulnerability) : result Z :=
  match RISK_RATINGS_ORDER !! name (risk_rating v) with
  | Some k => Returns k
  | None => Raises (KeyError (name (risk_rating v)))
  end.

(** The loop of the builtin [max(iterable, key=...)]: the running maximum
    is replaced only by a strictly greater key, so the first maximal item
    wins. *)
Fixpoint max_loop {A} (key : A -> result Z) (best : A) (kbest : Z)
         (l : list A) : result A :=
  match l with
  | [] => Returns best
  | x :: l' =>
      bind (key x) (fun kx =>
        if kbest <? kx then max_loop key x kx l'
        else max_loop key best kbest l')
  end.

Definition py_max {A} (l : list A) (key : A -> result Z) : result A :=
  match l with
  | [] => Raises (ValueError "max() arg is an empty sequence")
  | x :: l' => bind (key x) (fun kx => max_loop key x kx l')
  end.

(** [session.query(models.Vulnerability).filter(scan_id == ...)]. *)
Definition scan_vulnerabilities (db : Database) (id : Z) : list Vulnerability :=
  filter (fun v => vuln_scan_id v = id) (vulnerabilities db).

(** The ratings reported for a scan, one per vulnerability row. *)
Definition reported_ratings (db : Database) (id : Z) : list RiskRatingEnum :=
  map risk_rating (scan_vulnerabilities db id).

Section ComputeRiskRating.
(** [Query.distinct(models.Vulnerability.risk_rating).all()] is executed by
    the database engine: which of several rows with one rating it keeps,
    and in which order the rows come back, is the engine's choice. *)
Variable distinct : list Vulnerability -> list Vulnerability.

Definition _compute_risk_rating (db : Database) (id : Z) : result string :=
  match head (filter (fun s => scan_id s = id) (scans db)) with
  | None => Returns "unknown"
  | Some _ =>
      let distinct_vulnz := distinct (scan_vulnerabilities db id) in
      if Nat.eqb (length distinct_vulnz) 0 then Returns "unknown"
      else
        bind (py_max distinct_vulnz rank_key) (fun vuln_highest_risk =>
          Returns (lower (name (risk_rating vuln_highest_risk))))
  end.
End ComputeRiskRating.

(** Two engines' readings of [distinct]: PostgreSQL's DISTINCT ON keeps one
    row per rating; a plain SELECT DISTINCT over rows that carry their
    primary key keeps every row. *)
Fixpoint distinct_on_rating (seen : list string) (l : list Vulnerability)
  : list Vulnerability :=
  match l with
  | [] => []
  | v :: l' =>
      if existsb (String.eqb (name (risk_rating v))) seen
      then distinct_on_rating seen l'
      else v :: distinct_on_rating (name (risk_rating v) :: seen) l'
  end.

Definition distinct_rows (l : list Vulnerability) : list Vulnerability := l.

(** What a [distinct] must respect: it neither invents nor loses a rating. *)
Definition keeps_ratings (distinct : list Vulnerability -> list Vulnerability)
  : Prop :=
  forall l r, In r (map risk_rating (distinct l)) <-> In r (map risk_rating l).

(** The numeric rank of a rating, read off [RISK_RATINGS_ORDER]. *)
Definition rank (r : RiskRatingEnum) : Z :=
  default (-1) (RISK_RATINGS_ORDER !! name r).

(** Following the claim's words: the lexicographically greatest of a list of
    names, the aggregate the code must not compute. *)
Definition lexical_greatest (l : list string) : option string :=
  match l with
  | [] => None
  | s :: l' =>
      Some (fold_left (fun acc t =>
              match String.compare acc t with Lt => t | _ => acc end) l' s)
  end.

End ExportUtils.

(** ** agent/mixins/agent_open_telemetry_mixin.py *)

Module Telemetry.
Import Py.

(** *** [urllib.parse.urlparse]

    The standard library's splitting of a URL, for the three components
    the mixin reads.  It is the library's function on URLs whose network
    location is empty or made of ASCII characters without brackets: for other
    network locations the library goes on to validate a bracketed host and to
    check the NFKC form of a non-ASCII one, and may raise [ValueError] where
    this function returns.  The cut of the path at [;] is left out too; it
    applies to neither [jaeger] nor [file]. *)

Record ParseResult : Type := {
  scheme : string;
  netloc : string;
  path : string
}.

(** The longest prefix without a character satisfying [p], and the rest. *)
Fixpoint span_until (p : ascii -> bool) (s : string) : string * string :=
  match s with
  | EmptyString => (EmptyString, EmptyString)
  | String c s' =>
      if p c then (EmptyString, s)
      else let (pre, rest) := span_until p s' in (String c pre, rest)
  end.

Fixpoint str_forallb (p : ascii -> bool) (s : string) : bool :=
  match s with
  | EmptyString => true
  | String c s' => p c && str_forallb p s'
  end.

Definition str_contains (c : ascii) (s : string) : bool :=
  negb (str_forallb (fun d => negb (Ascii.eqb c d)) s).

Fixpoint str_filter (p : ascii -> bool) (s : string) : string :=
  match s with
  | EmptyString => EmptyString
  | String c s' => if p c then String c (str_filter p s') else str_filter p s'
  end.

Fixpoint lstrip (p : ascii -> bool) (s : string) : string :=
  match s with
  | EmptyString => EmptyString
  | String c s' => if p c then lstrip p s' else s
  end.

Definition code_between (lo hi : nat) (c : ascii) : bool :=
  Nat.leb lo (nat_of_ascii c) && Nat.leb (nat_of_ascii c) hi.

Definition is_alpha (c : ascii) : bool :=
  code_between 65 90 c || code_between 97 122 c.

(** [scheme_chars]: letters, digits and [+-.]. *)
Definition scheme_char (c : ascii) : bool :=
  is_alpha c || code_between 48 57 c
  || Ascii.eqb c "+" || Ascii.eqb c "-" || Ascii.eqb c ".".

Definition c0_control_or_space (c : ascii) : bool := code_between 0 32 c.

Definition unsafe_url_byte (c : ascii) : bool :=
  Ascii.eqb c "009" || Ascii.eqb c "013" || Ascii.eqb c "010".

(** [url.split(c, 1)] when [c] occurs: the text before and after it. *)
Definition cut_at (c : ascii) (s : string) : string * string :=
  let (pre, rest) := span_until (Ascii.eqb c) s in
  match rest with
  | String _ rest' => (pre, rest')
  | EmptyString => (pre, EmptyString)
  end.

Definition urlparse (url0 : string) : result ParseResult :=
  let url := str_filter (fun c => negb (unsafe_url_byte c))
                        (lstrip c0_control_or_space url0) in
  let (sch, url1) :=
    match url with
    | String c _ =>
        let (pre, rest) := span_until (Ascii.eqb ":") url in
        match rest with
        | String _ rest' =>
            if is_alpha c && str_forallb scheme_char pre
            then (lower pre, rest') else (EmptyString, url)
        | EmptyString => (EmptyString, url)
        end
    | EmptyString => (EmptyString, url)
    end in
  let (loc, url2) :=
    match url1 with
    | String "/" (String "/" after) =>
        span_until (fun c => Ascii.eqb c "/" || Ascii.eqb c "?"
                             || Ascii.eqb c "#") after
    | _ => (EmptyString, url1)
    end in
  if xorb (str_contains "[" loc) (str_contains "]" loc)
  then Raises (ValueError "Invalid IPv6 URL")
  else
    let url3 := fst (cut_at "#" url2) in
    let url4 := fst (cut_at "?" url3) in
    Returns {| scheme := sch; netloc := loc; path := url4 |}.

(** [str.split(sep)] for a one-character separator. *)
Fixpoint str_split (sep : ascii) (s : string) : list string :=
  match s with
  | EmptyString => [EmptyString]
  | String c s' =>
      if Ascii.eqb c sep then EmptyString :: str_split sep s'
      else match str_split sep s' with
           | h :: t => String c h :: t
           | [] => [String c EmptyString]
           end
  end.

(** [l[i]], an [IndexError] out of range. *)
Definition index {A} (l : list A) (i : nat) : result A :=
  match l !! i with
  | Some x => Returns x
  | None => Raises IndexError
  end.

(** *** [TraceExporter] *)

Record File : Type := { file_name : string }.

Inductive SpanExporter : Type :=
| JaegerExporter (agent_host_name : string) (agent_port : Z)
                 (udp_split_oversized_batches : bool)
| ConsoleSpanExporter (out : File).

Record TraceExporter : Type := {
  exporter_url : string;              (* self._tracing_collector_url *)
  _file : option File                 (* self._file *)
}.

Definition TraceExporter_init (tracing_collector_url : string) : TraceExporter :=
  {| exporter_url := tracing_collector_url; _file := None |}.

Section Exporter.
(** The builtins [int] and [open(path, 'w')], supplied by the interpreter
    and the file system. *)
Variable py_int : string -> result Z.
Variable py_open_w : string -> result File.

Definition _get_file_exporter (parsed_url : ParseResult)
  : exec TraceExporter SpanExporter :=
  fun self =>
    let file_path := path parsed_url in
    match py_open_w file_path with
    | Returns f =>
        (Returns (ConsoleSpanExporter f),
         {| exporter_url := exporter_url self; _file := Some f |})
    | Raises e => (Raises e, self)
    end.

Definition _get_jaeger_exporter (parsed_url : ParseResult)
  : exec TraceExporter SpanExporter :=
  fun self =>
    let netloc := netloc parsed_url in
    (bind (index (str_split ":" netloc) 0) (fun hostname =>
     bind (index (str_split ":" netloc) 1) (fun port_text =>
     bind (py_int port_text) (fun port =>
       Returns (JaegerExporter hostname port true)))), self).

Definition get_trace_exporter : exec TraceExporter SpanExporter :=
  fun self =>
    match urlparse (exporter_url self) with
    | Raises e => (Raises e, self)
    | Returns parsed_url =>
        let scheme := scheme parsed_url in
        if String.eqb scheme "jaeger" then _get_jaeger_exporter parsed_url self
        else if String.eqb scheme "file" then _get_file_exporter parsed_url self
        else (Raises (NotImplementedError ("Invalid tracer type " +:+ scheme)), self)
    end.
End Exporter.

(** *** The tracer: spans, the context stack and the span processor *)

Record Span : Type := {
  span_name : string;
  span_attributes : list (string * string);
  span_exceptions : list exn;         (* record_exception events *)
  span_status_error : bool            (* status set to ERROR *)
}.

Definition new_span (name : string) : Span :=
  {| span_name := name; span_attributes := []; span_exceptions := [];
     span_status_error := false |}.

(** One invocation of a method of the wrapped agent class, with the name of
    the span that is current while it runs. *)
Inductive Call : Type :=
| ProcessMessageCall (selector : string) (message : list Byte.byte)
                     (current : option string)
| EmitCall (selector : string) (data : list (string * string))
           (current : option string).

Record World : Type := {
  current_spans : list Span;          (* context stack, innermost first *)
  ended_spans : list Span;            (* handed to the span processor, oldest first *)
  calls : list Call                   (* wrapped-agent invocations, oldest first *)
}.

Definition set_attribute (key value : string) : exec World unit :=
  fun w =>
    match current_spans w with
    | sp :: rest =>
        (Returns tt,
         {| current_spans :=
              {| span_name := span_name sp;
                 span_attributes := span_attributes sp ++ [(key, value)];
                 span_exceptions := span_exceptions sp;
                 span_status_error := span_status_error sp |} :: rest;
            ended_spans := ended_spans w; calls := calls w |})
    | [] => (Returns tt, w)
    end.

Definition record_exception (e : exn) (w : World) : World :=
  match current_spans w with
  | sp :: rest =>
      {| current_spans :=
           {| span_name := span_name sp;
              span_attributes := span_attributes sp;
              span_exceptions := span_exceptions sp ++ [e];
              span_status_error := true |} :: rest;
         ended_spans := ended_spans w; calls := calls w |}
  | [] => w
  end.

Definition end_span (w : World) : World :=
  match current_spans w with
  | sp :: rest =>
      {| current_spans := rest; ended_spans := ended_spans w ++ [sp];
         calls := calls w |}
  | [] => w
  end.

(** [with tracer.start_as_current_span(name) as span: body]: the span is
    started and made current, the body runs, an exception leaving the body
    is recorded on the span and re-raised, and the span is ended either way. *)
Definition start_as_current_span {A} (name : string) (body : exec World A)
  : exec World A :=
  fun w =>
    let w1 := {| current_spans := new_span name :: current_spans w;
                 ended_spans := ended_spans w; calls := calls w |} in
    match body w1 with
    | (Returns a, w2) => (Returns a, end_span w2)
    | (Raises e, w2) => (Raises e, end_span (record_exception e w2))
    end.

(** *** [OpenTelemetryMixin] *)

Record AgentDefinition : Type := { agent_name : string }.

Record AgentSettings : Type := {
  key : string;
  tracing_collector_url : option string
}.

Record SimpleSpanProcessor : Type := { span_exporter : SpanExporter }.

(** The instance attributes.  [_tracing_collector_url] is always assigned
    (to [None] when tracing is off); the other three are assigned only when
    it is set, so [None] stands for an attribute the object does not have.
    [name] is the attribute the agent base class sets from its definition;
    the global tracer provider and its resource are not represented. *)
Record OpenTelemetryMixin : Type := {
  name : string;
  _agent_settings : AgentSettings;
  _tracing_collector_url : option string;
  _exporter : option TraceExporter;
  _span_processor : option SimpleSpanProcessor;
  tracer : option unit
}.

Section Mixin.
Variable py_int : string -> result Z.
Variable py_open_w : string -> result File.
(** The next class in the MRO: what the agent's own [process_message] and
    [emit] come to for a given message.  Here they leave the tracer alone;
    [TelemetryNested] has them act on the world. *)
Variable super_process_message : string -> list Byte.byte -> result unit.
Variable super_emit : string -> list (string * string) -> result unit.

Definition __init__ (agent_definition : AgentDefinition)
           (agent_settings : AgentSettings) : result OpenTelemetryMixin :=
  let url :=
    match tracing_collector_url agent_settings with
    | Some u => if negb (String.eqb u "") then Some u else None
    | None => None
    end in
  match url with
  | Some u =>
      let exporter := TraceExporter_init u in
      match get_trace_exporter py_int py_open_w exporter with
      | (Returns span_exporter, exporter') =>
          Returns {| name := agent_name agent_definition;
                     _agent_settings := agent_settings;
                     _tracing_collector_url := Some u;
                     _exporter := Some exporter';
                     _span_processor :=
                       Some {| span_exporter := span_exporter |};
                     tracer := Some tt |}
      | (Raises e, _) => Raises e
      end
  | None =>
      Returns {| name := agent_name agent_definition;
                 _agent_settings := agent_settings;
                 _tracing_collector_url := None;
                 _exporter := None;
                 _span_processor := None;
                 tracer := None |}
  end.

(** [SimpleSpanProcessor.force_flush] has nothing buffered and returns. *)
Definition force_flush_file_exporter (self : OpenTelemetryMixin) : result unit :=
  match _span_processor self with
  | Some _ => Returns tt
  | None => Raises (AttributeError "_span_processor")
  end.

Definition current_name (w : World) : option string :=
  span_name <$> head (current_spans w).

Definition call_super_process_message (selector : string)
           (message : list Byte.byte) : exec World unit :=
  fun w =>
    (super_process_message selector message,
     {| current_spans := current_spans w; ended_spans := ended_spans w;
        calls := calls w ++ [ProcessMessageCall selector message (current_name w)] |}).

Definition call_super_emit (selector : string)
           (data : list (string * string)) : exec World unit :=
  fun w =>
    (super_emit selector data,
     {| current_spans := current_spans w; ended_spans := ended_spans w;
        calls := calls w ++ [EmitCall selector data (current_name w)] |}).

Definition process_message (self : OpenTelemetryMixin) (selector : string)
           (message : list Byte.byte) : exec World unit :=
  match _tracing_collector_url self with
  | Some _ =>
      match tracer self with
      | None => raise (AttributeError "tracer")
      | Some _ =>
          start_as_current_span "process_message"
            (do! call_super_process_message selector message in
             do! set_attribute "agent.name" (name self) in
             set_attribute "message.selector" selector)
      end
  | None => call_super_process_message selector message
  end.

Definition emit (self : OpenTelemetryMixin) (selector : string)
           (data : list (string * string)) : exec World unit :=
  match _tracing_collector_url self with
  | Some _ =>
      match tracer self with
      | None => raise (AttributeError "tracer")
      | Some _ =>
          start_as_current_span "emit_message"
            (do! call_super_emit selector data in
             do! set_attribute "agent.name" (name self) in
             set_attribute "message.selector" selector)
      end
  | None => call_super_emit selector data
  end.
End Mixin.

End Telemetry.

(** ** serve_app/oxo.py *)

Module Oxo.
Import Py.

(** *** The tables of [models] the resolvers and mutations touch *)

Record Scan : Type := {
  scan_id : Z;
  scan_title : string;
  scan_agent_group_id : option Z
}.

Record Agent : Type := { agent_id : Z; agent_key : string }.

Record AgentArgument : Type := {
  argument_agent_id : Z;
  argument_name : string;
  argument_type : string;
  argument_value : string;
  argument_description : option string
}.

Record AgentGroup : Type := {
  group_name : string;
  group_description : string;
  group_agents : list Agent
}.

(** A row of the polymorphic [asset] table: the [type] discriminator and the
    columns of the subclasses, empty where the subclass has none. *)
Record Asset : Type := {
  asset_id : Z;
  asset_type : string;
  asset_scan_id : option Z;
  asset_path : string;
  asset_package_name : string;
  asset_bundle_id : string;
  asset_networks : string;
  asset_links : string
}.

Record Database : Type := {
  scans : gmap Z Scan;
  agent_groups : gmap Z AgentGroup;
  agent_arguments : list AgentArgument;
  assets : list Asset
}.

(** A call that reaches the local runtime or the agent installer. *)
Inductive RuntimeCall : Type :=
| StopCall (scan_id : string)
| InstallCall
| InstallAgentCall (key : string) (version : option string)
| ScanCall (title : string).

Record World : Type := {
  db : Database;
  files : gmap string (list Byte.byte);
  uuids_drawn : nat;
  runtime_log : list RuntimeCall
}.

Definition with_db (w : World) (d : Database) : World :=
  {| db := d; files := files w; uuids_drawn := uuids_drawn w;
     runtime_log := runtime_log w |}.

Definition log_call (c : RuntimeCall) (w : World) : World :=
  {| db := db w; files := files w; uuids_drawn := uuids_drawn w;
     runtime_log := runtime_log w ++ [c] |}.

(** *** [definitions] and [assets]: what a scan is started with *)

Record Arg : Type := {
  arg_name : string;
  arg_type : string;
  arg_value : string;
  arg_description : option string
}.

Record AgentSettings : Type := {
  key : string;
  version : option string;
  args : list Arg
}.

Record AgentGroupDefinition : Type := {
  name : string;
  description : string;
  agents : list AgentSettings
}.

Inductive ScanAsset : Type :=
| AndroidApk (content : list Byte.byte) (path : string)
| AndroidAab (content : list Byte.byte) (path : string)
| IOSIpa (content : list Byte.byte) (path : string)
| AndroidStore (package_name : string)
| IOSStore (bundle_id : string)
| IPv4 (host mask : string)
| IPv6 (host mask : string)
| Link (url method : option string).

Record IPNetwork : Type := {
  ip_version : Z;
  network_address_exploded : string;
  prefixlen : Z
}.

(** What a Python call hands back where only [is True] is asked of it. *)
Inductive pyval : Type := PyTrue | PyFalse | PyNone | PyObject (repr : string).

Definition is_True (v : pyval) : bool :=
  match v with PyTrue => true | _ => false end.

(** *** The GraphQL input types of [CreateAssetsMutation] *)

Record OxoAndroidStoreAssetInputType : Type := {
  android_store_package_name : string;
  android_store_application_name : string
}.

Record OxoAndroidFileAssetInputType : Type := {
  android_file_file : list Byte.byte;
  android_file_package_name : string
}.

Record OxoIOSStoreAssetInputType : Type := {
  ios_store_bundle_id : string;
  ios_store_application_name : string
}.

Record OxoIOSFileAssetInputType : Type := {
  ios_file_file : list Byte.byte;
  ios_file_bundle_id : string
}.

Record OxoLinkInputType : Type := { link_url : string; link_method : string }.

Record OxoIPRangeInputType : Type := { ip_host : string; ip_mask : option string }.

Record OxoAssetInputType : Type := {
  android_store : option OxoAndroidStoreAssetInputType;
  android_file : option OxoAndroidFileAssetInputType;
  ios_store : option OxoIOSStoreAssetInputType;
  ios_file : option OxoIOSFileAssetInputType;
  link : option (list OxoLinkInputType);
  ip : option (list OxoIPRangeInputType)
}.

Record OxoAgentScanInputType : Type := {
  input_title : string;
  input_asset_ids : list Z;
  input_agent_group_id : Z
}.

(** The keyword arguments of the six [models.<Class>.create] calls. *)
Inductive NewAsset : Type :=
| NewAndroidStore (package_name application_name : string)
| NewAndroidFile (package_name path : string)
| NewIosStore (bundle_id application_name : string)
| NewIosFile (bundle_id path : string)
| NewUrl (links : list OxoLinkInputType)
| NewNetwork (networks : list string).

Definition is_not_None {A} (o : option A) : bool :=
  match o with Some _ => true | None => false end.

Definition newline : string := String "010" EmptyString.

Section Resolvers.
(** Code of the package outside this module, and the interpreter:
    [LocalRuntime], [install_agent.install], [models.<Class>.create],
    [common.is_apk] and friends, [ipaddress.ip_network], [json.loads],
    [uuid.uuid4], the configured upload path and [str] of an asset input. *)
Variable runtime_stop : string -> exec Database unit.
Variable runtime_install : result unit.
Variable runtime_can_run : AgentGroupDefinition -> result pyval.
Variable runtime_scan :
  string -> AgentGroupDefinition -> list ScanAsset -> exec Database Scan.
Variable install_agent_install : string -> option string -> result unit.
Variable create : NewAsset -> Database -> Asset * Database.
Variable is_apk is_xapk is_aab : list Byte.byte -> bool.
Variable ip_network : string -> result IPNetwork.
Variable json_loads_list : string -> result (list string).
Variable json_loads_link : string -> result (option string * option string).
Variable uuid4 : nat -> string.
Variable upload_path : string.
Variable str_asset : OxoAssetInputType -> string.

(** [Query.resolve_scan] *)
Definition resolve_scan (scan_id : Z) : exec World Scan :=
  fun w =>
    match scans (db w) !! scan_id with
    | None => (Raises (GraphQLError "Scan not found."), w)
    | Some scan => (Returns scan, w)
    end.

(** [StopScanMutation.mutate] *)
Definition StopScanMutation_mutate (scan_id : Z) : exec World Scan :=
  fun w =>
    match scans (db w) !! scan_id with
    | None => (Raises (GraphQLError "Scan not found."), w)
    | Some scan =>
        let w1 := log_call (StopCall (pretty scan_id)) w in
        match runtime_stop (pretty scan_id) (db w1) with
        | (Returns _, d) => (Returns scan, with_db w1 d)
        | (Raises e, d) => (Raises e, with_db w1 d)
        end
    end.

(** [DeleteAgentGroupMutation.mutate] *)
Definition DeleteAgentGroupMutation_mutate (agent_group_id : Z) : exec World bool :=
  fun w =>
    match agent_groups (db w) !! agent_group_id with
    | None => (Raises (GraphQLError "AgentGroup not found."), w)
    | Some _ =>
        (Returns true,
         with_db w {| scans := scans (db w);
                      agent_groups := delete agent_group_id (agent_groups (db w));
                      agent_arguments := agent_arguments (db w);
                      assets := assets (db w) |})
    end.

(** [CreateAssetsMutation._validate] *)
Definition _validate (asset : OxoAssetInputType) : option string :=
  let assets :=
    (if is_not_None (android_store asset) then 1 else 0)
    + (if is_not_None (android_file asset) then 1 else 0)
    + (if is_not_None (ios_store asset) then 1 else 0)
    + (if is_not_None (ios_file asset) then 1 else 0)
    + (if is_not_None (link asset) then 1 else 0)
    + (if is_not_None (ip asset) then 1 else 0) in
  if assets =? 0 then
    Some ("Asset " +:+ str_asset asset +:+ " input is missing target.")
  else if 2 <=? assets then
    Some ("Single target input must be defined for asset " +:+ str_asset asset +:+ ".")
  else None.

Definition do_create (n : NewAsset) (w : World) : Asset * World :=
  let (a, d) := create n (db w) in (a, with_db w d).

(** [path.write_bytes(content)] under a freshly drawn uuid. *)
Definition write_upload (prefix : string) (content : list Byte.byte) (w : World)
  : string * World :=
  let file_path := upload_path +:+ "/" +:+ prefix +:+ uuid4 (uuids_drawn w) in
  (file_path,
   {| db := db w; files := <[file_path := content]> (files w);
      uuids_drawn := S (uuids_drawn w); runtime_log := runtime_log w |}).

Definition network_text (ip_input : OxoIPRangeInputType) : string :=
  match ip_mask ip_input with
  | Some mask => ip_host ip_input +:+ "/" +:+ mask
  | None => ip_host ip_input
  end.

(** The six [if asset.<target> is not None] blocks of one loop iteration. *)
Definition create_targets (asset : OxoAssetInputType)
           (created_assets : list Asset) (w : World) : list Asset * World :=
  let '(created1, w1) :=
    match android_store asset with
    | Some t =>
        let (new_asset, w') :=
          do_create (NewAndroidStore (android_store_package_name t)
                                     (android_store_application_name t)) w in
        (created_assets ++ [new_asset], w')
    | None => (created_assets, w)
    end in
  let '(created2, w2) :=
    match android_file asset with
    | Some t =>
        let (android_file_path, w') := write_upload "android_" (android_file_file t) w1 in
        let (new_asset, w'') :=
          do_create (NewAndroidFile (android_file_package_name t) android_file_path) w' in
        (created1 ++ [new_asset], w'')
    | None => (created1, w1)
    end in
  let '(created3, w3) :=
    match ios_store asset with
    | Some t =>
        let (new_asset, w') :=
          do_create (NewIosStore (ios_store_bundle_id t)
                                 (ios_store_application_name t)) w2 in
        (created2 ++ [new_asset], w')
    | None => (created2, w2)
    end in
  let '(created4, w4) :=
    match ios_file asset with
    | Some t =>
        let (ios_file_path, w') := write_upload "ios_" (ios_file_file t) w3 in
        let (new_asset, w'') :=
          do_create (NewIosFile (ios_file_bundle_id t) ios_file_path) w' in
        (created3 ++ [new_asset], w'')
    | None => (created3, w3)
    end in
  let '(created5, w5) :=
    match link asset with
    | Some links =>
        let (new_asset, w') := do_create (NewUrl links) w4 in
        (created4 ++ [new_asset], w')
    | None => (created4, w4)
    end in
  match ip asset with
  | Some ips =>
      let (new_asset, w') := do_create (NewNetwork (map network_text ips)) w5 in
      (created5 ++ [new_asset], w')
  | None => (created5, w5)
  end.

(** The [for asset in assets] loop of [CreateAssetsMutation.mutate]. *)
Fixpoint create_assets_loop (assets : list OxoAssetInputType)
         (created_assets : list Asset) (errors : list string) (w : World)
  : list Asset * list string * World :=
  match assets with
  | [] => (created_assets, errors, w)
  | asset :: rest =>
      match _validate asset with
      | Some error_message =>
          create_assets_loop rest created_assets (errors ++ [error_message]) w
      | None =>
          let (created', w') := create_targets asset created_assets w in
          create_assets_loop rest created' errors w'
      end
  end.

(** [CreateAssetsMutation.mutate] *)
Definition CreateAssetsMutation_mutate (assets : list OxoAssetInputType)
  : exec World (list Asset) :=
  fun w =>
    let '(created_assets, errors, w') := create_assets_loop assets [] [] w in
    if Nat.ltb 0 (length errors) then
      (Raises (GraphQLError ("Invalid assets: " +:+ String.concat newline errors)), w')
    else (Returns created_assets, w').

(** *** [RunScanMutation] *)

Fixpoint mapM {A B} (f : A -> result B) (l : list A) : result (list B) :=
  match l with
  | [] => Returns []
  | x :: l' => bind (f x) (fun y => bind (mapM f l') (fun ys => Returns (y :: ys)))
  end.

Definition build_arg (arg : AgentArgument) : Arg :=
  {| arg_name := argument_name arg; arg_type := argument_type arg;
     arg_value := argument_value arg;
     arg_description := argument_description arg |}.

Definition build_agent_settings (d : Database) (agent : Agent)
  : result AgentSettings :=
  let parts := Telemetry.str_split ":" (agent_key agent) in
  bind (Telemetry.index parts 0) (fun k =>
  bind (if Telemetry.str_contains ":" (agent_key agent)
        then bind (Telemetry.index parts 1) (fun v => Returns (Some v))
        else Returns None) (fun v =>
  Returns {| key := k; version := v;
             args := map build_arg
                       (filter (fun a => argument_agent_id a = agent_id agent)
                               (agent_arguments d)) |})).

(** [RunScanMutation._prepare_agent_group] *)
Definition _prepare_agent_group (agent_group_id : Z)
  : exec World AgentGroupDefinition :=
  fun w =>
    match agent_groups (db w) !! agent_group_id with
    | None => (Raises (GraphQLError "Agent group not found."), w)
    | Some agent_group =>
        (bind (mapM (build_agent_settings (db w)) (group_agents agent_group))
           (fun ags =>
              Returns {| name := group_name agent_group;
                         description := group_description agent_group;
                         agents := ags |}), w)
    end.

Definition scan_ip (ip : string) : result ScanAsset :=
  bind (ip_network ip) (fun net =>
    if ip_version net =? 4 then
      Returns (IPv4 (network_address_exploded net) (pretty (prefixlen net)))
    else if ip_version net =? 6 then
      Returns (IPv6 (network_address_exploded net) (pretty (prefixlen net)))
    else Raises (GraphQLError ("Invalid IP address " +:+ ip))).

Definition scan_link (url : string) : result ScanAsset :=
  bind (json_loads_link url) (fun u => Returns (Link (fst u) (snd u))).

(** One iteration of the loop of [_prepare_assets]: the scan assets a row
    contributes. *)
Definition prepare_asset (w : World) (asset : Asset) : result (list ScanAsset) :=
  if String.eqb (asset_type asset) "android_file" then
    match files w !! asset_path asset with
    | None => Raises (GraphQLError ("File " +:+ asset_path asset +:+ " not found."))
    | Some file_bytes =>
        if is_apk file_bytes || is_xapk file_bytes then
          Returns [AndroidApk file_bytes (asset_path asset)]
        else if is_aab file_bytes then
          Returns [AndroidAab file_bytes (asset_path asset)]
        else Raises (GraphQLError ("Unsupported file type: " +:+ asset_path asset))
    end
  else if String.eqb (asset_type asset) "ios_file" then
    match files w !! asset_path asset with
    | None => Raises (GraphQLError ("File " +:+ asset_path asset +:+ " not found."))
    | Some file_bytes => Returns [IOSIpa file_bytes (asset_path asset)]
    end
  else if String.eqb (asset_type asset) "android_store" then
    Returns [AndroidStore (asset_package_name asset)]
  else if String.eqb (asset_type asset) "ios_store" then
    Returns [IOSStore (asset_bundle_id asset)]
  else if String.eqb (asset_type asset) "network" then
    bind (json_loads_list (asset_networks asset)) (mapM scan_ip)
  else if String.eqb (asset_type asset) "urls" then
    bind (json_loads_list (asset_links asset)) (mapM scan_link)
  else Raises (GraphQLError "Unsupported asset type.").

(** [RunScanMutation._prepare_assets] *)
Definition _prepare_assets (asset_ids : list Z) : exec World (list ScanAsset) :=
  fun w =>
    let assets := filter (fun a => asset_id a ∈ asset_ids) (assets (db w)) in
    if Nat.eqb (length assets) 0 then (Raises (GraphQLError "Assets not found."), w)
    else (bind (mapM (prepare_asset w) assets) (fun per_row =>
            Returns (concat per_row)), w).

Definition call_runtime_install : exec World unit :=
  fun w => (runtime_install, log_call InstallCall w).

Definition call_install_agent (key : string) (version : option string)
  : exec World unit :=
  fun w => (install_agent_install key version,
            log_call (InstallAgentCall key version) w).

Definition is_AgentDetailsNotFound (e : exn) : bool :=
  match e with AgentDetailsNotFound _ => true | _ => false end.

Definition is_HTTPError (e : exn) : bool :=
  match e with HTTPError _ => true | _ => false end.

(** The [for ag in agent_group.agents] loop.  The handler of
    [AgentDetailsNotFound] evaluates a [GraphQLError] expression and drops
    its value: nothing is raised and nothing is kept. *)
Fixpoint install_agents_loop (agents : list AgentSettings) : exec World unit :=
  match agents with
  | [] => ret tt
  | ag :: rest =>
      do! try_except (call_install_agent (key ag) (version ag))
            is_AgentDetailsNotFound
            (fun _ =>
               let _ := GraphQLError ("Agent " +:+ key ag +:+ " not found on the store.") in
               ret tt) in
      install_agents_loop rest
  end.

(** [RunScanMutation._install_agents] *)
Definition _install_agents (agent_group : AgentGroupDefinition) : exec World unit :=
  try_except
    (do! call_runtime_install in install_agents_loop (agents agent_group))
    is_HTTPError
    (fun e => raise (GraphQLError ("Could not install the agents: " +:+ str_exn e))).

Definition set_asset_scan_id (scan_id : Z) (a : Asset) : Asset :=
  {| asset_id := asset_id a; asset_type := asset_type a;
     asset_scan_id := Some scan_id; asset_path := asset_path a;
     asset_package_name := asset_package_name a;
     asset_bundle_id := asset_bundle_id a;
     asset_networks := asset_networks a; asset_links := asset_links a |}.

(** The [with models.Database() as session] block of [mutate].  The agent
    group id is assigned on the object [runtime.scan] returned, which this
    session neither adds nor merges, so the commit leaves the scan table as
    it is; the requested assets are queried in this session and their
    [scan_id] is written. *)
Definition attach_scan (scan : OxoAgentScanInputType) (created_scan : Scan)
           (d : Database) : Scan * Database :=
  let created_scan' :=
    {| scan_id := scan_id created_scan; scan_title := scan_title created_scan;
       scan_agent_group_id := Some (input_agent_group_id scan) |} in
  (created_scan',
   {| scans := scans d;
      agent_groups := agent_groups d;
      agent_arguments := agent_arguments d;
      assets := map (fun a => if bool_decide (asset_id a ∈ input_asset_ids scan)
                              then set_asset_scan_id (scan_id created_scan) a
                              else a) (assets d) |}).

Definition call_runtime_scan (title : string) (agent_group : AgentGroupDefinition)
           (scan_assets : list ScanAsset) : exec World Scan :=
  fun w =>
    let w1 := log_call (ScanCall title) w in
    let (r, d) := runtime_scan title agent_group scan_assets (db w1) in
    (r, with_db w1 d).

Definition reraise_as_runtime_error {A} (e : exn) : exec World A :=
  raise (GraphQLError ("Runtime encountered an error to run scan: " +:+ str_exn e)).

(** [RunScanMutation.mutate]; [None] is the value of a Python function that
    falls off its end. *)
Definition RunScanMutation_mutate (scan : OxoAgentScanInputType)
  : exec World (option Scan) :=
  let! agent_group := _prepare_agent_group (input_agent_group_id scan) in
  let! scan_assets := _prepare_assets (input_asset_ids scan) in
  let! can_run_scan :=
    try_except (fun w => (runtime_can_run agent_group, w))
               is_OstorlabError reraise_as_runtime_error in
  if is_True can_run_scan then
    do! _install_agents agent_group in
    let! created_scan :=
      try_except
        (let! created_scan :=
           call_runtime_scan (input_title scan) agent_group scan_assets in
         fun w =>
           let (created_scan', d) := attach_scan scan created_scan (db w) in
           (Returns created_scan', with_db w d))
        is_OstorlabError reraise_as_runtime_error in
    ret (Some created_scan)
  else ret None.

End Resolvers.

End Oxo.

(** * Predicates and sample data of the statements *)

Module ExportUtilsData.
Import Py ExportUtils.

(** A scan row with this id is in the table. *)
Definition has_scan (db : Database) (id : Z) : Prop :=
  exists s, In s (scans db) /\ scan_id s = id.

(** A database to run the aggregate on: scan 1 with reports LOW, CRITICAL,
    MEDIUM, scan 2 with none; and the same with the reports in another
    order. *)
Definition sample_db : Database :=
  {| scans := [ {| scan_id := 1; scan_title := "web" |};
                {| scan_id := 2; scan_title := "empty" |} ];
     vulnerabilities :=
       [ {| vuln_id := 1; vuln_scan_id := 1; vuln_title := "a"; risk_rating := LOW |};
         {| vuln_id := 2; vuln_scan_id := 1; vuln_title := "b"; risk_rating := CRITICAL |};
         {| vuln_id := 3; vuln_scan_id := 1; vuln_title := "c"; risk_rating := MEDIUM |} ] |}.

Definition sample_db_permuted : Database :=
  {| scans := scans sample_db;
     vulnerabilities :=
       [ {| vuln_id := 3; vuln_scan_id := 1; vuln_title := "c"; risk_rating := MEDIUM |};
         {| vuln_id := 1; vuln_scan_id := 1; vuln_title := "a"; risk_rating := LOW |};
         {| vuln_id := 2; vuln_scan_id := 1; vuln_title := "b"; risk_rating := CRITICAL |} ] |}.

End ExportUtilsData.

Module TelemetryData.
Import Py Telemetry.

(** An interpreter and a file system to run the mixin on: [int] of a text of
    decimal digits, and an [open] that always succeeds. *)
Fixpoint digits_value (acc : Z) (s : string) : option Z :=
  match s with
  | EmptyString => Some acc
  | String c s' =>
      if code_between 48 57 c
      then digits_value (10 * acc + Z.of_nat (nat_of_ascii c) - 48) s'
      else None
  end.

Definition sample_int (s : string) : result Z :=
  match s with
  | EmptyString => Raises (ValueError "invalid literal for int()")
  | _ => match digits_value 0 s with
         | Some n => Returns n
         | None => Raises (ValueError "invalid literal for int()")
         end
  end.

Definition sample_open_w (p : string) : result File :=
  Returns {| file_name := p |}.

Definition sample_definition : AgentDefinition := {| agent_name := "nmap" |}.

Definition settings_with (url : option string) : AgentSettings :=
  {| key := "agent/ostorlab/nmap"; tracing_collector_url := url |}.

Definition empty_world : World :=
  {| current_spans := []; ended_spans := []; calls := [] |}.

Definition returning_handler : string -> list Byte.byte -> result unit :=
  fun _ _ => Returns tt.
Definition raising_handler : string -> list Byte.byte -> result unit :=
  fun _ _ => Raises (ValueError "boom").
Definition returning_emit : string -> list (string * string) -> result unit :=
  fun _ _ => Returns tt.

(** The text names a collector: it is there and not empty. *)
Definition url_configured (settings : AgentSettings) : Prop :=
  exists u, tracing_collector_url settings = Some u /\ u <> "".

Definition url_missing (settings : AgentSettings) : Prop :=
  tracing_collector_url settings = None \/ tracing_collector_url settings = Some "".

Definition sample_traced_agent : OpenTelemetryMixin :=
  {| name := "nmap";
     _agent_settings := settings_with (Some "file:/tmp/trace.json");
     _tracing_collector_url := Some "file:/tmp/trace.json";
     _exporter := Some {| exporter_url := "file:/tmp/trace.json";
                          _file := Some {| file_name := "/tmp/trace.json" |} |};
     _span_processor :=
       Some {| span_exporter := ConsoleSpanExporter {| file_name := "/tmp/trace.json" |} |};
     tracer := Some tt |}.

Definition error_span : Span :=
  {| span_name := "process_message"; span_attributes := [];
     span_exceptions := [ValueError "boom"]; span_status_error := true |}.

End TelemetryData.

Module OxoData.
Import Py Oxo.

Definition empty_db : Database :=
  {| scans := ∅; agent_groups := ∅; agent_arguments := []; assets := [] |}.

Definition world_of (d : Database) : World :=
  {| db := d; files := ∅; uuids_drawn := 0; runtime_log := [] |}.

Definition nmap_group : AgentGroup :=
  {| group_name := "nmap group"; group_description := "port scan";
     group_agents := [ {| agent_id := 1; agent_key := "agent/ostorlab/nmap:1.0" |} ] |}.

Definition store_asset : Asset :=
  {| asset_id := 1; asset_type := "android_store"; asset_scan_id := None;
     asset_path := ""; asset_package_name := "a.b.c"; asset_bundle_id := "";
     asset_networks := ""; asset_links := "" |}.

Definition sample_db : Database :=
  {| scans := {[ 7 := {| scan_id := 7; scan_title := "old";
                         scan_agent_group_id := None |} ]};
     agent_groups := {[ 1 := nmap_group ]};
     agent_arguments := [];
     assets := [store_asset] |}.

Definition stop_ok : string -> exec Database unit := fun _ d => (Returns tt, d).

(** A store that has every agent, and one that lacks [agent/missing]. *)
Definition store_complete : string -> option string -> result unit :=
  fun _ _ => Returns tt.
Definition store_lacking : string -> option string -> result unit :=
  fun key _ =>
    if String.eqb key "agent/missing"
    then Raises (AgentDetailsNotFound "agent/missing")
    else Returns tt.

Definition two_agents : AgentGroupDefinition :=
  {| name := "pair"; description := "";
     agents := [ {| key := "agent/missing"; version := None; args := [] |};
                 {| key := "agent/ostorlab/nmap"; version := Some "1.0"; args := [] |} ] |}.

Definition not_found_or_ok (r : result unit) : bool :=
  match r with
  | Returns _ => true
  | Raises e => is_AgentDetailsNotFound e
  end.

(** A [create] that appends the row under the next free id. *)
Definition append_create (n : NewAsset) (d : Database) : Asset * Database :=
  let row :=
    {| asset_id := Z.of_nat (length (assets d)) + 1;
       asset_type :=
         match n with
         | NewAndroidStore _ _ => "android_store"
         | NewAndroidFile _ _ => "android_file"
         | NewIosStore _ _ => "ios_store"
         | NewIosFile _ _ => "ios_file"
         | NewUrl _ => "urls"
         | NewNetwork _ => "network"
         end;
       asset_scan_id := None;
       asset_path := match n with
                     | NewAndroidFile _ p | NewIosFile _ p => p
                     | _ => ""
                     end;
       asset_package_name := match n with
                             | NewAndroidStore p _ | NewAndroidFile p _ => p
                             | _ => ""
                             end;
       asset_bundle_id := match n with
                          | NewIosStore b _ | NewIosFile b _ => b
                          | _ => ""
                          end;
       asset_networks := match n with
                         | NewNetwork l => String.concat "," l
                         | _ => ""
                         end;
       asset_links := match n with
                      | NewUrl l => String.concat "," (map link_url l)
                      | _ => ""
                      end |} in
  (row, {| scans := scans d; agent_groups := agent_groups d;
           agent_arguments := agent_arguments d;
           assets := assets d ++ [row] |}).

Definition no_target : OxoAssetInputType :=
  {| android_store := None; android_file := None; ios_store := None;
     ios_file := None; link := None; ip := None |}.

Definition store_input : OxoAssetInputType :=
  {| android_store := Some {| android_store_package_name := "a.b.c";
                              android_store_application_name := "fake_app" |};
     android_file := None; ios_store := None; ios_file := None;
     link := None; ip := None |}.

Definition two_targets : OxoAssetInputType :=
  {| android_store := Some {| android_store_package_name := "a.b.c";
                              android_store_application_name := "fake_app" |};
     android_file := None;
     ios_store := Some {| ios_store_bundle_id := "a.b.c";
                          ios_store_application_name := "fake_app" |};
     ios_file := None; link := None; ip := None |}.

Definition sample_str_asset (a : OxoAssetInputType) : string :=
  if is_not_None (android_store a) then "{'android_store': ..}" else "{}".

(** The inputs the loop creates assets for, and the messages it collects. *)
Definition valid_inputs_of (str_asset : OxoAssetInputType -> string)
           (assets : list OxoAssetInputType) : list OxoAssetInputType :=
  filter (fun a => _validate str_asset a = None) assets.

Definition error_messages_of (str_asset : OxoAssetInputType -> string)
           (assets : list OxoAssetInputType) : list string :=
  omap (_validate str_asset) assets.

Definition never_apk : list Byte.byte -> bool := fun _ => false.
Definition no_ip : string -> result IPNetwork :=
  fun ip => Raises (ValueError ("not an address: " +:+ ip)).
Definition no_json_list : string -> result (list string) :=
  fun _ => Raises (ValueError "not JSON").
Definition no_json_link : string -> result (option string * option string) :=
  fun _ => Raises (ValueError "not JSON").
Definition scan_creates : string -> AgentGroupDefinition -> list ScanAsset
                          -> exec Database Scan :=
  fun title _ _ d =>
    let created := {| scan_id := 8; scan_title := title;
                      scan_agent_group_id := None |} in
    (Returns created,
     {| scans := <[8 := created]> (scans d); agent_groups := agent_groups d;
        agent_arguments := agent_arguments d; assets := assets d |}).
Definition cannot_run : AgentGroupDefinition -> result pyval :=
  fun _ => Returns PyFalse.
Definition can_run : AgentGroupDefinition -> result pyval :=
  fun _ => Returns PyTrue.

Definition sample_scan_input : OxoAgentScanInputType :=
  {| input_title := "Test Scan"; input_asset_ids := [1];
     input_agent_group_id := 1 |}.

End OxoData.

Module TelemetryForms.
Import Py Telemetry.

(** The characters that end or split a part of a URL, and the bytes
    [urlparse] removes: a text free of them is taken over as it is. *)
Definition url_special (c : ascii) : bool :=
  Ascii.eqb c ":" || Ascii.eqb c "/" || Ascii.eqb c "?" || Ascii.eqb c "#"
  || Ascii.eqb c "[" || Ascii.eqb c "]" || unsafe_url_byte c.

Definition plain (s : string) : bool :=
  str_forallb (fun c => negb (url_special c)) s.

(** Texts of ASCII characters only: on a network location of such
    characters [urllib] runs no normalisation check. *)
Definition is_ascii (s : string) : bool :=
  str_forallb (fun c => Nat.ltb (nat_of_ascii c) 128) s.

(** A file path after [file:]: no query or fragment mark, no removed byte. *)
Definition path_char (c : ascii) : bool :=
  negb (Ascii.eqb c "?" || Ascii.eqb c "#" || unsafe_url_byte c).

Definition plain_path (s : string) : bool := str_forallb path_char s.

(** What [process_message] and [emit] leave behind besides the spans. *)
Definition after_call (w : World) (c : Call) (ended : list Span) : World :=
  {| current_spans := current_spans w; ended_spans := ended_spans w ++ ended;
     calls := calls w ++ [c] |}.

End TelemetryForms.

(** ** The mixin over wrapped methods that act on the tracer

    [process_message] and [emit] again, with the next class in the MRO given
    as a computation on the world: the agent's own code may start and end
    spans while it runs, as a [process] that calls [self.emit] does. *)

Module TelemetryNested.
Import Py Telemetry.

Section Over.
Variable super_process_message : string -> list Byte.byte -> exec World unit.
Variable super_emit : string -> list (string * string) -> exec World unit.

Definition process_message_over (self : OpenTelemetryMixin) (selector : string)
           (message : list Byte.byte) : exec World unit :=
  match _tracing_collector_url self with
  | Some _ =>
      match tracer self with
      | None => raise (AttributeError "tracer")
      | Some _ =>
          start_as_current_span "process_message"
            (do! super_process_message selector message in
             do! set_attribute "agent.name" (name self) in
             set_attribute "message.selector" selector)
      end
  | None => super_process_message selector message
  end.

Definition emit_over (self : OpenTelemetryMixin) (selector : string)
           (data : list (string * string)) : exec World unit :=
  match _tracing_collector_url self with
  | Some _ =>
      match tracer self with
      | None => raise (AttributeError "tracer")
      | Some _ =>
          start_as_current_span "emit_message"
            (do! super_emit selector data in
             do! set_attribute "agent.name" (name self) in
             set_attribute "message.selector" selector)
      end
  | None => super_emit selector data
  end.
End Over.




End TelemetryNested.

Module OxoForms.
Import Py Oxo.

(** The calls that installing a list of agents leaves in the runtime log. *)
Definition install_calls (ags : list AgentSettings) : list RuntimeCall :=
  map (fun ag => InstallAgentCall (key ag) (version ag)) ags.

Definition logged (w : World) (cs : list RuntimeCall) : World :=
  {| db := db w; files := files w; uuids_drawn := uuids_drawn w;
     runtime_log := runtime_log w ++ cs |}.

(** The text of a stored agent key before its first colon, and the text
    between the first colon and the second (or the end), if there is one. *)
Definition key_part (k : string) : string := fst (Telemetry.cut_at ":" k).

Definition version_part (k : string) : option string :=
  if Telemetry.str_contains ":" k
  then Some (fst (Telemetry.cut_at ":" (snd (Telemetry.cut_at ":" k))))
  else None.

Definition has_file_target (a : OxoAssetInputType) : bool :=
  is_not_None (android_file a) || is_not_None (ios_file a).

(** What [mutate] makes of an error of the runtime: an [OstorlabError] is
    re-raised as a GraphQL error, anything else passes. *)
Definition translated (e : exn) : exn :=
  if is_OstorlabError e
  then GraphQLError ("Runtime encountered an error to run scan: " +:+ str_exn e)
  else e.

(** A database whose one group has a key with a version and a further colon,
    and a key without version. *)
Definition keyed_db : Database :=
  {| scans := ∅;
     agent_groups :=
       {[ 1 := {| group_name := "g"; group_description := "";
                  group_agents :=
                    [ {| agent_id := 1; agent_key := "agent/a:1.0:rc" |};
                      {| agent_id := 2; agent_key := "agent/b" |} ] |} ]};
     agent_arguments := []; assets := [] |}.

(** Collaborators that fail: a [can_run] and a [scan] raising an
    [OstorlabError], and a store that lacks one agent and times out on all
    others. *)
Definition can_run_raises : AgentGroupDefinition -> result pyval :=
  fun _ => Raises (OstorlabError "docker is not running").

Definition scan_raises : string -> AgentGroupDefinition -> list ScanAsset
                         -> exec Database Scan :=
  fun _ _ _ d => (Raises (OstorlabError "service unhealthy"), d).

Definition store_timing_out : string -> option string -> result unit :=
  fun key _ =>
    if String.eqb key "agent/missing"
    then Raises (AgentDetailsNotFound "agent/missing")
    else Raises (HTTPError "timed out").

Definition nmap_definition : AgentGroupDefinition :=
  {| name := "nmap group"; description := "port scan";
     agents := [ {| key := "agent/ostorlab/nmap"; version := Some "1.0";
                    args := [] |} ] |}.

Definition file_input : OxoAssetInputType :=
  {| android_store := None;
     android_file := Some {| android_file_file := []; android_file_package_name := "a.b.c" |};
     ios_store := None;
     ios_file := Some {| ios_file_file := []; ios_file_bundle_id := "a.b.c" |};
     link := None; ip := None |}.

(** What creating the assets of a list of valid inputs comes to, written
    out input by input: the upload, if the input carries a file, is stored
    under the path made from the next uuid, and [create] is run on the
    database with the keyword arguments of the one target. *)
Definition persist_one (create : NewAsset -> Database -> Asset * Database)
           (uuid4 : nat -> string) (upload_path : string)
           (a : OxoAssetInputType) (w : World) : option (Asset * World) :=
  let stored (n : NewAsset) (files' : gmap string (list Byte.byte)) (drawn : nat) :=
    Some (fst (create n (db w)),
          {| db := snd (create n (db w)); files := files';
             uuids_drawn := drawn; runtime_log := runtime_log w |}) in
  match android_store a, android_file a, ios_store a, ios_file a, link a, ip a with
  | Some t, None, None, None, None, None =>
      stored (NewAndroidStore (android_store_package_name t)
                              (android_store_application_name t))
             (files w) (uuids_drawn w)
  | None, Some t, None, None, None, None =>
      let p := upload_path +:+ "/" +:+ "android_" +:+ uuid4 (uuids_drawn w) in
      stored (NewAndroidFile (android_file_package_name t) p)
             (<[p := android_file_file t]> (files w)) (S (uuids_drawn w))
  | None, None, Some t, None, None, None =>
      stored (NewIosStore (ios_store_bundle_id t) (ios_store_application_name t))
             (files w) (uuids_drawn w)
  | None, None, None, Some t, None, None =>
      let p := upload_path +:+ "/" +:+ "ios_" +:+ uuid4 (uuids_drawn w) in
      stored (NewIosFile (ios_file_bundle_id t) p)
             (<[p := ios_file_file t]> (files w)) (S (uuids_drawn w))
  | None, None, None, None, Some links, None =>
      stored (NewUrl links) (files w) (uuids_drawn w)
  | None, None, None, None, None, Some ips =>
      stored (NewNetwork
                (map (fun i => match ip_mask i with
                               | Some mask => ip_host i +:+ "/" +:+ mask
                               | None => ip_host i
                               end) ips))
             (files w) (uuids_drawn w)
  | _, _, _, _, _, _ => None
  end.

Fixpoint persist (create : NewAsset -> Database -> Asset * Database)
         (uuid4 : nat -> string) (upload_path : string)
         (inputs : list OxoAssetInputType) (w : World) : list Asset * World :=
  match inputs with
  | [] => ([], w)
  | a :: rest =>
      match persist_one create uuid4 upload_path a w with
      | Some (row, w1) =>
          let (rows, w2) := persist create uuid4 upload_path rest w1 in
          (row :: rows, w2)
      | None => persist create uuid4 upload_path rest w
      end
  end.

(** A [create] that stores what it returns: the new row is appended to the
    asset table. *)
Definition create_appends (create : NewAsset -> Database -> Asset * Database)
  : Prop :=
  forall n d, assets (snd (create n d)) = assets d ++ [fst (create n d)].

End OxoForms.

(** ** serve_app/oxo.py: [DeleteScanMutation] *)

Module OxoDeleteScan.
Import Py.

Record ScanStatus : Type := {
  status_id : Z;
  status_scan_id : Z;
  status_key : string;
  status_value : string
}.

(** The session of [DeleteScanMutation]: the tables of [Oxo] and the two
    tables of rows that hang on a scan. *)
Record Session : Type := {
  tables : Oxo.Database;
  vulnerabilities : list ExportUtils.Vulnerability;
  scan_statuses : list ScanStatus
}.

(** [DeleteScanMutation.mutate] *)
Definition DeleteScanMutation_mutate (scan_id : Z) : exec Session bool :=
  fun session =>
    match Oxo.scans (tables session) !! scan_id with
    | None => (Raises (GraphQLError "Scan not found."), session)
    | Some _ =>
        (Returns true,
         {| tables :=
              {| Oxo.scans := delete scan_id (Oxo.scans (tables session));
                 Oxo.agent_groups := Oxo.agent_groups (tables session);
                 Oxo.agent_arguments := Oxo.agent_arguments (tables session);
                 Oxo.assets := Oxo.assets (tables session) |};
            vulnerabilities :=
              filter (fun v => ExportUtils.vuln_scan_id v <> scan_id)
                     (vulnerabilities session);
            scan_statuses :=
              filter (fun s => status_scan_id s <> scan_id)
                     (scan_statuses session) |})
    end.

Definition sample_session : Session :=
  {| tables := OxoData.sample_db;
     vulnerabilities :=
       [ {| ExportUtils.vuln_id := 1; ExportUtils.vuln_scan_id := 7;
            ExportUtils.vuln_title := "xss";
            ExportUtils.risk_rating := ExportUtils.HIGH |};
         {| ExportUtils.vuln_id := 2; ExportUtils.vuln_scan_id := 9;
            ExportUtils.vuln_title := "sqli";
            ExportUtils.risk_rating := ExportUtils.CRITICAL |} ];
     scan_statuses :=
       [ {| status_id := 1; status_scan_id := 7; status_key := "progress";
            status_value := "done" |} ] |}.

End OxoDeleteScan.

(** ** serve_app/export_utils.py: the archive *)

Module ExportArchive.
Import Py.

(** The values handed to [json.dumps]; a dict keeps its insertion order. *)
#[warnings="-register-all"]
Inductive json : Type :=
| JNull
| JStr (s : string)
| JInt (n : Z)
| JList (items : list json)
| JDict (fields : list (string * json)).

Definition jopt (o : option string) : json :=
  match o with Some s => JStr s | None => JNull end.

(** What [archive.writestr] is given. *)
Inductive Content : Type :=
| Text (s : string)
| Bytes (b : list Byte.byte).

(** The archive under construction: its members, oldest first. *)
Abbreviation Archive := (list (string * Content)).

Definition SCAN_JSON : string := "scan.json".
Definition ASSET_JSON : string := "asset.json".
Definition VULNERABILITY_JSON : string := "vulnerability.json".

(** *** The rows read through the session *)

Record ScanRow : Type := {
  scan : ExportUtils.Scan;              (* id and title *)
  created_time : Z
}.

Record AssetRow : Type := {
  asset_id : Z;
  asset_scan_id : option Z;
  type : string;
  asset_path : option string;
  asset_package_name : option string;
  asset_bundle_id : option string;
  asset_application_name : option string
}.

Record IPRange : Type := { network_asset_id : Z; ip_host : string }.

Record LinkRow : Type := { urls_asset_id : Z; link_url : string }.

Record Reference : Type := {
  reference_vulnerability_id : Z;
  reference_title : option string;
  reference_url : option string
}.

Record VulnerabilityRow : Type := {
  vuln : ExportUtils.Vulnerability;     (* id, scan_id, title, risk_rating *)
  short_description : option string;
  description : option string;
  recommendation : option string;
  technical_detail : option string;
  cvss_v3_vector : option string
}.

Record Database : Type := {
  scans : list ExportUtils.Scan;
  assets : list AssetRow;
  ip_ranges : list IPRange;
  links : list LinkRow;
  vulnerabilities : list VulnerabilityRow;
  references : list Reference;
  scan_statuses : list OxoDeleteScan.ScanStatus
}.

(** The two tables [_compute_risk_rating] reads. *)
Definition rating_tables (d : Database) : ExportUtils.Database :=
  {| ExportUtils.scans := scans d;
     ExportUtils.vulnerabilities := map vuln (vulnerabilities d) |}.

(** [str.replace(old, new)] for one-character texts. *)
Fixpoint replace_char (old new : ascii) (s : string) : string :=
  match s with
  | EmptyString => EmptyString
  | String c s' =>
      String (if Ascii.eqb c old then new else c) (replace_char old new s')
  end.

Definition writestr (member : string) (content : Content) : exec Archive unit :=
  fun archive => (Returns tt, archive ++ [(member, content)]).

(** A [for] loop that collects one value per item and stops at the first
    exception. *)
Fixpoint for_each {W A B} (f : A -> exec W B) (l : list A) : exec W (list B) :=
  match l with
  | [] => ret []
  | x :: l' =>
      let! y := f x in
      let! ys := for_each f l' in
      ret (y :: ys)
  end.

Section ExportScan.
(** The engine's [distinct], [json.dumps], [pathlib.Path(...).name],
    [datetime.strftime] with the format of [_export_scan],
    [ipaddress.ip_network(..., strict=False)], and the files on disk. *)
Variable distinct : list ExportUtils.Vulnerability -> list ExportUtils.Vulnerability.
Variable json_dumps : json -> string.
Variable path_name : string -> string.
Variable strftime : Z -> string.
Variable ip_network : string -> result Oxo.IPNetwork.
Variable files : gmap string (list Byte.byte).
Variable db : Database.

(** The branch shared by [android_file] and [ios_file]; [kind] is the word
    the error message starts with.  A file that is on disk is read and
    written to the archive; a read or write that failed would be swallowed
    by the [except Exception: pass] and add no member. *)
Definition export_file_asset (kind : string) (asset : AssetRow)
           (asset_dict : list (string * json)) : exec Archive json :=
  match asset_path asset with
  | Some p =>
      let mobile_app := path_name p in
      let asset_dict := asset_dict ++ [("path", JStr mobile_app)] in
      match files !! p with
      | None => raise (ValueError (kind +:+ " File " +:+ p +:+ " not found."))
      | Some content =>
          do! writestr mobile_app (Bytes content) in
          ret (JDict asset_dict)
      end
  | None => ret (JDict asset_dict)
  end.

Definition network_text (ip : IPRange) : result json :=
  bind (ip_network (ip_host ip)) (fun ip_network =>
    Returns (JStr (Oxo.network_address_exploded ip_network +:+ "/"
                   +:+ pretty (Oxo.prefixlen ip_network)))).

(** The body of the loop of [_export_asset]. *)
Definition export_one_asset (asset : AssetRow) : exec Archive json :=
  let asset_type :=
    if Telemetry.str_contains "_" (type asset)
    then lower (replace_char "_" " " (type asset))
    else type asset in
  let asset_dict := [("tags", JNull); ("type", JStr (lower asset_type))] in
  if String.eqb (type asset) "android_file" then
    export_file_asset "Android" asset asset_dict
  else if String.eqb (type asset) "ios_file" then
    export_file_asset "IOS" asset asset_dict
  else if String.eqb (type asset) "android_store" then
    ret (JDict (asset_dict
                ++ [("package_name", jopt (asset_package_name asset));
                    ("application_name", jopt (asset_application_name asset))]))
  else if String.eqb (type asset) "ios_store" then
    ret (JDict (asset_dict
                ++ [("package_name", jopt (asset_bundle_id asset));
                    ("application_name", jopt (asset_application_name asset))]))
  else if String.eqb (type asset) "network" then
    fun archive =>
      (bind (Oxo.mapM network_text
               (filter (fun ip => network_asset_id ip = asset_id asset) (ip_ranges db)))
            (fun networks => Returns (JDict (asset_dict ++ [("networks", JList networks)]))),
       archive)
  else if String.eqb (type asset) "urls" then
    ret (JDict (asset_dict
                ++ [("urls",
                     JList (map (fun link => JStr (link_url link))
                                (filter (fun l => urls_asset_id l = asset_id asset)
                                        (links db))))]))
  else raise (NotImplementedError "").

(** [_export_asset] *)
Definition _export_asset (scan_id : Z) : exec Archive unit :=
  let assets := filter (fun a => asset_scan_id a = Some scan_id) (assets db) in
  if Nat.eqb (length assets) 0 then ret tt
  else
    let! assets_data := for_each export_one_asset assets in
    writestr ASSET_JSON
      (Text (String.concat Oxo.newline (map json_dumps assets_data))).

Definition status_entry (status : OxoDeleteScan.ScanStatus) : json :=
  JDict [("id", JInt (OxoDeleteScan.status_id status));
         ("key", JStr (OxoDeleteScan.status_key status));
         ("value", JStr (OxoDeleteScan.status_value status))].

(** [_export_scan] *)
Definition _export_scan (scan_row : ScanRow) : exec Archive unit :=
  fun archive =>
    match ExportUtils._compute_risk_rating distinct (rating_tables db)
            (ExportUtils.scan_id (scan scan_row)) with
    | Raises e => (Raises e, archive)
    | Returns risk_rating =>
        let scan_dict :=
          [("title", JStr (ExportUtils.scan_title (scan scan_row)));
           ("created_time", JStr (strftime (created_time scan_row)));
           ("risk_rating", JStr risk_rating);
           ("status",
            JList (map status_entry
                     (filter (fun s => OxoDeleteScan.status_scan_id s
                                       = ExportUtils.scan_id (scan scan_row))
                             (scan_statuses db))))] in
        writestr SCAN_JSON (Text (json_dumps (JDict scan_dict))) archive
    end.

Definition vulnerability_entry (v : VulnerabilityRow) : json :=
  let refs_list :=
    map (fun ref => JDict [("title", jopt (reference_title ref));
                           ("url", jopt (reference_url ref))])
        (filter (fun r => reference_vulnerability_id r = ExportUtils.vuln_id (vuln v))
                (references db)) in
  let risk_rating :=
    JStr (lower (ExportUtils.name (ExportUtils.risk_rating (vuln v)))) in
  let kb_dict :=
    JDict [("title", JStr (ExportUtils.vuln_title (vuln v)));
           ("short_description", jopt (short_description v));
           ("description", jopt (description v));
           ("recommendation", jopt (recommendation v));
           ("risk_rating", risk_rating);
           ("references", JList refs_list)] in
  JDict [("detail", kb_dict);
         ("technical_detail", jopt (technical_detail v));
         ("risk_rating", risk_rating);
         ("cvss_v3_vector", jopt (cvss_v3_vector v))].

(** [_export_vulnz] *)
Definition _export_vulnz (scan_id : Z) : exec Archive unit :=
  let vulns_list :=
    map vulnerability_entry
        (filter (fun v => ExportUtils.vuln_scan_id (vuln v) = scan_id)
                (vulnerabilities db)) in
  writestr VULNERABILITY_JSON (Text (json_dumps (JList vulns_list))).

(** [export_scan], started on an empty archive; what it returns is the
    archive read back, given here by its members. *)
Definition export_scan (scan_row : ScanRow) (export_ide : bool)
  : result Archive * Archive :=
  (do! _export_asset (ExportUtils.scan_id (scan scan_row)) in
   do! _export_scan scan_row in
   do! _export_vulnz (ExportUtils.scan_id (scan scan_row)) in
   if export_ide then raise (NotImplementedError "")
   else fun archive => (Returns archive, archive)) [].

End ExportScan.

(** Sample rows: scan 1 with an app from the store and a range, two
    vulnerabilities and a status; scan 2 with an asset of a type the export
    does not know. *)
Definition sample_db : Database :=
  {| scans := [ {| ExportUtils.scan_id := 1; ExportUtils.scan_title := "web" |};
                {| ExportUtils.scan_id := 2; ExportUtils.scan_title := "odd" |} ];
     assets :=
       [ {| asset_id := 1; asset_scan_id := Some 1; type := "android_store";
            asset_path := None; asset_package_name := Some "a.b.c";
            asset_bundle_id := None; asset_application_name := Some "app" |};
         {| asset_id := 2; asset_scan_id := Some 2; type := "domain";
            asset_path := None; asset_package_name := None;
            asset_bundle_id := None; asset_application_name := None |} ];
     ip_ranges := [];
     links := [];
     vulnerabilities :=
       [ {| vuln := {| ExportUtils.vuln_id := 1; ExportUtils.vuln_scan_id := 1;
                       ExportUtils.vuln_title := "xss";
                       ExportUtils.risk_rating := ExportUtils.LOW |};
            short_description := None; description := None;
            recommendation := None; technical_detail := None;
            cvss_v3_vector := None |};
         {| vuln := {| ExportUtils.vuln_id := 2; ExportUtils.vuln_scan_id := 1;
                       ExportUtils.vuln_title := "sqli";
                       ExportUtils.risk_rating := ExportUtils.HIGH |};
            short_description := None; description := None;
            recommendation := None; technical_detail := None;
            cvss_v3_vector := None |} ];
     references := [];
     scan_statuses := [] |}.

(** Scan 1 with an uploaded app whose file is gone. *)
Definition upload_db : Database :=
  {| scans := [ {| ExportUtils.scan_id := 1; ExportUtils.scan_title := "web" |} ];
     assets :=
       [ {| asset_id := 1; asset_scan_id := Some 1; type := "ios_file";
            asset_path := Some "/uploads/ios_u"; asset_package_name := None;
            asset_bundle_id := Some "a.b.c"; asset_application_name := None |} ];
     ip_ranges := []; links := []; vulnerabilities := []; references := [];
     scan_statuses := [] |}.

Definition sample_scan (id : Z) : ScanRow :=
  {| scan := {| ExportUtils.scan_id := id; ExportUtils.scan_title := "web" |};
     created_time := 0 |}.

(** A stand-in for [json.dumps]: enough to tell the members apart. *)
Definition sample_dumps (j : json) : string :=
  match j with
  | JList l => "[" +:+ pretty (Z.of_nat (length l)) +:+ " items]"
  | JDict f => "{" +:+ pretty (Z.of_nat (length f)) +:+ " keys}"
  | _ => "?"
  end.

(** The asset types [_export_asset] has a branch for. *)
Definition known_type (t : string) : bool :=
  existsb (String.eqb t)
          ["android_file"; "ios_file"; "android_store"; "ios_store"; "network"; "urls"].

Definition is_file_type (t : string) : bool :=
  String.eqb t "android_file" || String.eqb t "ios_file".


(** The text under [risk_rating] of a dict, if it has one. *)
Definition rating_field (j : json) : option string :=
  match j with
  | JDict fields =>
      match filter (fun kv => fst kv = "risk_rating") fields with
      | (_, JStr s) :: _ => Some s
      | _ => None
      end
  | _ => None
  end.

(** The rank of a rating text, by [RISK_RATINGS_ORDER] on its upper-case
    name; the texts of the export are lower-case. *)
Definition rank_of_text (s : string) : option Z :=
  match filter (fun r => lower (ExportUtils.name r) = s) ExportUtils.all_ratings with
  | r :: _ => Some (ExportUtils.rank r)
  | [] => None
  end.

End ExportArchive.

(** * Properties *)

(** ** Risk aggregation *)

Module ExportUtilsSpec.
Import Py ExportUtils ExportUtilsData.

Lemma rank_key_rank v : rank_key v = Returns (rank (risk_rating v)).
Proof. unfold rank_key, rank. destruct (risk_rating v); reflexivity. Qed.

Lemma rank_table :
  rank CRITICAL = 8 /\ rank HIGH = 7 /\ rank MEDIUM = 6 /\ rank LOW = 5 /\
  rank POTENTIALLY = 4 /\ rank HARDENING = 3 /\ rank SECURE = 2 /\
  rank IMPORTANT = 1 /\ rank INFO = 0.
Proof. repeat split; reflexivity. Qed.

Lemma rank_bounds r : 0 <= rank r <= 8.
Proof. destruct r; vm_compute; split; discriminate. Qed.

Lemma rank_inj r1 r2 : rank r1 = rank r2 -> r1 = r2.
Proof. destruct r1, r2; vm_compute; congruence. Qed.

(** The loop of [max] ends on an item of the list whose rank bounds all. *)
Lemma max_loop_rank l : forall best,
  exists m, max_loop rank_key best (rank (risk_rating best)) l = Returns m
            /\ In m (best :: l)
            /\ forall x, In x (best :: l) ->
                         rank (risk_rating x) <= rank (risk_rating m).
Proof.
  induction l as [|x l IH]; intros best; simpl.
  - exists best. split; [reflexivity|]. split; [now left|].
    intros y [->|[]]. lia.
  - rewrite rank_key_rank. simpl.
    destruct (Z.ltb_spec (rank (risk_rating best)) (rank (risk_rating x))) as [Hlt|Hge].
    + destruct (IH x) as (m & Hm & Hin & Hmax).
      exists m. split; [exact Hm|]. split.
      * right. exact Hin.
      * intros y [->|Hy]; [|now apply Hmax].
        specialize (Hmax x (or_introl eq_refl)). lia.
    + destruct (IH best) as (m & Hm & Hin & Hmax).
      exists m. split; [exact Hm|]. split.
      * destruct Hin as [->|Hin]; [now left | right; now right].
      * intros y [->|[->|Hy]].
        -- apply Hmax. now left.
        -- specialize (Hmax best (or_introl eq_refl)). lia.
        -- apply Hmax. now right.
Qed.

Lemma py_max_rank l : l <> [] ->
  exists m, py_max l rank_key = Returns m /\ In m l
            /\ forall x, In x l -> rank (risk_rating x) <= rank (risk_rating m).
Proof.
  destruct l as [|x l]; [congruence|]. intros _.
  unfold py_max. rewrite rank_key_rank. simpl. apply max_loop_rank.
Qed.

Lemma has_scan_head db id :
  has_scan db id ->
  exists s, head (filter (fun s => scan_id s = id) (scans db)) = Some s.
Proof.
  intros (s & Hin & Hid).
  destruct (filter (fun s => scan_id s = id) (scans db)) as [|s' l'] eqn:E.
  - exfalso. apply list_elem_of_In in Hin.
    assert (s ∈ filter (fun s => scan_id s = id) (scans db)) as H
      by (apply list_elem_of_filter; auto).
    rewrite E in H. inversion H.
  - exists s'. reflexivity.
Qed.

Section Aggregate.
Variable distinct : list Vulnerability -> list Vulnerability.
Hypothesis distinct_keeps : keeps_ratings distinct.

Lemma distinct_nonempty l : map risk_rating l <> [] -> distinct l <> [].
Proof.
  intros Hne Hd. destruct l as [|v l]; [now apply Hne|].
  assert (In (risk_rating v) (map risk_rating (distinct (v :: l)))) as H
    by (apply distinct_keeps; now left).
  rewrite Hd in H. exact H.
Qed.

Lemma distinct_empty l : map risk_rating l = [] -> distinct l = [].
Proof.
  intros He. destruct (distinct l) as [|v d] eqn:E; [reflexivity|].
  assert (In (risk_rating v) (map risk_rating l)) as H
    by (apply distinct_keeps; rewrite E; now left).
  rewrite He in H. destruct H.
Qed.

(** With a scan row and at least one report, the aggregate is the lower-cased
    name of a reported rating of greatest rank. *)
Lemma compute_risk_rating_some db id :
  has_scan db id -> reported_ratings db id <> [] ->
  exists r, _compute_risk_rating distinct db id = Returns (lower (name r))
            /\ In r (reported_ratings db id)
            /\ forall r', In r' (reported_ratings db id) -> rank r' <= rank r.
Proof.
  intros Hs Hne. destruct (has_scan_head db id Hs) as (s & Hhead).
  unfold _compute_risk_rating. rewrite Hhead.
  pose proof (distinct_nonempty _ Hne) as Hd.
  destruct (py_max_rank _ Hd) as (m & Hm & Hin & Hmax).
  destruct (distinct (scan_vulnerabilities db id)) as [|v d] eqn:E; [congruence|].
  cbn [length Nat.eqb]. rewrite Hm. cbn [bind].
  exists (risk_rating m). split; [reflexivity|]. split.
  - apply distinct_keeps. rewrite E. now apply in_map.
  - intros r' Hr'. apply distinct_keeps in Hr'. rewrite E in Hr'.
    apply in_map_iff in Hr' as (x & <- & Hx). now apply Hmax.
Qed.

(** Without a report the aggregate is the text [unknown], scan row or not. *)
Lemma compute_risk_rating_none db id :
  reported_ratings db id = [] ->
  _compute_risk_rating distinct db id = Returns "unknown".
Proof.
  intros He. unfold _compute_risk_rating.
  destruct (head _); [|reflexivity].
  rewrite (distinct_empty _ He). reflexivity.
Qed.

Lemma compute_risk_rating_perm db1 db2 id :
  scans db1 = scans db2 ->
  Permutation (reported_ratings db1 id) (reported_ratings db2 id) ->
  _compute_risk_rating distinct db1 id = _compute_risk_rating distinct db2 id.
Proof.
  intros Hsc Hp.
  destruct (head (filter (fun s => scan_id s = id) (scans db1))) as [s|] eqn:Hh.
  - assert (has_scan db1 id) as H1.
    { apply head_Some_elem_of in Hh. apply list_elem_of_filter in Hh as [Hid Hin].
      exists s. split; [now apply list_elem_of_In|exact Hid]. }
    assert (has_scan db2 id) as H2.
    { destruct H1 as (s' & Hin & Hid). exists s'. rewrite <- Hsc. auto. }
    destruct (reported_ratings db1 id) as [|r l] eqn:E1.
    + apply Permutation_nil in Hp.
      rewrite !compute_risk_rating_none; auto.
    + assert (reported_ratings db2 id <> []) as Hne2.
      { intros E2. rewrite E2 in Hp. apply Permutation_sym, Permutation_nil in Hp.
        discriminate. }
      assert (reported_ratings db1 id <> []) as Hne1 by (rewrite E1; discriminate).
      destruct (compute_risk_rating_some db1 id H1 Hne1) as (r1 & -> & Hin1 & Hmax1).
      destruct (compute_risk_rating_some db2 id H2 Hne2) as (r2 & -> & Hin2 & Hmax2).
      rewrite E1 in Hin1, Hmax1.
      assert (rank r1 <= rank r2)
        by (apply Hmax2; eapply Permutation_in; eauto).
      assert (rank r2 <= rank r1)
        by (apply Hmax1; eapply Permutation_in; [apply Permutation_sym|]; eauto).
      f_equal. f_equal. f_equal. apply rank_inj. lia.
  - unfold _compute_risk_rating. rewrite <- Hsc, Hh. reflexivity.
Qed.

End Aggregate.

Lemma name_inj a b : name a = name b -> a = b.
Proof. destruct a, b; simpl; congruence. Qed.

Lemma rating_eq_dec (a b : RiskRatingEnum) : {a = b} + {a <> b}.
Proof. decide equality. Defined.

Lemma distinct_on_rating_seen seen l r :
  In r (map risk_rating (distinct_on_rating seen l)) <->
  In r (map risk_rating l) /\ ~ In (name r) seen.
Proof.
  revert seen. induction l as [|v l IH]; intros seen; simpl; [tauto|].
  destruct (existsb (String.eqb (name (risk_rating v))) seen) eqn:E.
  - apply existsb_exists in E as (x & Hx & Hxe). apply String.eqb_eq in Hxe. subst x.
    rewrite IH. split.
    + intros [H1 H2]. auto.
    + intros [[Heq|H1] H2]; [subst r; contradiction|auto].
  - assert (~ In (name (risk_rating v)) seen) as Hn.
    { intros Hin.
      assert (existsb (String.eqb (name (risk_rating v))) seen = true) as Ht
        by (apply existsb_exists; exists (name (risk_rating v)); split;
            [exact Hin | apply String.eqb_refl]).
      congruence. }
    simpl. rewrite IH. simpl. split.
    + intros [Heq|[H1 H2]]; [subst r; auto|].
      split; [auto|]. intros H3. apply H2. now right.
    + intros [[Heq|H1] H2]; [now left|].
      destruct (rating_eq_dec (risk_rating v) r) as [Heq|Hne]; [now left|].
      right. split; [exact H1|].
      intros [H3|H3]; [apply name_inj in H3|]; contradiction.
Qed.

(** Both readings of [distinct] keep the ratings. *)
Lemma distinct_on_rating_keeps : keeps_ratings (distinct_on_rating []).
Proof.
  intros l r. rewrite distinct_on_rating_seen. simpl. tauto.
Qed.

Lemma distinct_rows_keeps : keeps_ratings distinct_rows.
Proof. intros l r. reflexivity. Qed.

(** C1. Whenever a scan has at least one reported vulnerability, the
    aggregate is the (lower-cased) name of the reported rating of greatest
    rank in [RISK_RATINGS_ORDER], where CRITICAL has rank 8 and INFO rank 0,
    and not the lexicographically greatest name: the reports
    [LOW, CRITICAL, MEDIUM] aggregate to critical although MEDIUM is the
    greatest name; and two databases whose reported ratings for the scan are
    permutations of each other have the same aggregate.  This holds for
    every engine whose [distinct] keeps the set of ratings. *)
Theorem compute_risk_rating_max_rank
  (distinct : list Vulnerability -> list Vulnerability)
  (Hdistinct : keeps_ratings distinct) :
  (rank CRITICAL = 8 /\ rank INFO = 0 /\ forall r, 0 <= rank r <= 8)
  /\ (forall db id,
        has_scan db id -> reported_ratings db id <> [] ->
        exists r,
          _compute_risk_rating distinct db id = Returns (lower (name r))
          /\ In r (reported_ratings db id)
          /\ forall r', In r' (reported_ratings db id) -> rank r' <= rank r)
  /\ (forall db id,
        has_scan db id -> reported_ratings db id = [LOW; CRITICAL; MEDIUM] ->
        _compute_risk_rating distinct db id = Returns (lower (name CRITICAL))
        /\ lexical_greatest (map name [LOW; CRITICAL; MEDIUM]) = Some (name MEDIUM))
  /\ (forall db1 db2 id,
        scans db1 = scans db2 ->
        Permutation (reported_ratings db1 id) (reported_ratings db2 id) ->
        _compute_risk_rating distinct db1 id = _compute_risk_rating distinct db2 id).
Proof.
  split; [|split; [|split]].
  - split; [reflexivity|]. split; [reflexivity|]. apply rank_bounds.
  - intros db id. now apply compute_risk_rating_some.
  - intros db id Hs He. split; [|reflexivity].
    assert (reported_ratings db id <> []) as Hne by (rewrite He; discriminate).
    destruct (compute_risk_rating_some distinct Hdistinct db id Hs Hne)
      as (r & -> & Hin & Hmax).
    rewrite He in Hin, Hmax.
    assert (rank CRITICAL <= rank r) as Hc by (apply Hmax; simpl; auto).
    destruct Hin as [<-|[<-|[<-|[]]]]; vm_compute in Hc; try reflexivity;
      exfalso; apply Hc; reflexivity.
  - intros db1 db2 id. now apply compute_risk_rating_perm.
Qed.

Lemma sample_has_scan : has_scan sample_db 1.
Proof. eexists. split; [left; reflexivity|reflexivity]. Defined.

Lemma compute_risk_rating_max_rank_witness :
  _compute_risk_rating (distinct_on_rating []) sample_db 1 = Returns "critical"
  /\ _compute_risk_rating (distinct_on_rating []) sample_db 1
     = _compute_risk_rating (distinct_on_rating []) sample_db_permuted 1.
Proof.
  pose proof (compute_risk_rating_max_rank (distinct_on_rating [])
                distinct_on_rating_keeps) as (_ & _ & Hex & Hperm).
  split.
  - apply (Hex sample_db 1 sample_has_scan). reflexivity.
  - apply (Hperm sample_db sample_db_permuted 1); [reflexivity|].
    vm_compute. apply perm_trans with [LOW; MEDIUM; CRITICAL].
    + apply perm_skip. apply perm_swap.
    + apply perm_swap.
Defined.

(** C2. A scan without reported vulnerabilities aggregates to the text
    [unknown], which is the name of no rating, INFO included. *)
Theorem compute_risk_rating_unknown
  (distinct : list Vulnerability -> list Vulnerability)
  (Hdistinct : keeps_ratings distinct) :
  (forall db id,
     reported_ratings db id = [] ->
     _compute_risk_rating distinct db id = Returns "unknown")
  /\ (forall r, lower (name r) <> "unknown")
  /\ lower (name INFO) <> "unknown".
Proof.
  split; [|split].
  - intros db id. now apply compute_risk_rating_none.
  - intros r. destruct r; vm_compute; discriminate.
  - vm_compute. discriminate.
Qed.

Lemma compute_risk_rating_unknown_witness :
  _compute_risk_rating (distinct_on_rating []) sample_db 2 = Returns "unknown"
  /\ _compute_risk_rating distinct_rows sample_db 2 = Returns "unknown".
Proof.
  split.
  - apply (compute_risk_rating_unknown (distinct_on_rating [])
             distinct_on_rating_keeps). reflexivity.
  - apply (compute_risk_rating_unknown distinct_rows distinct_rows_keeps).
    reflexivity.
Defined.



End ExportUtilsSpec.

(** ** Tracing exporter and mixin *)

Module TelemetrySpec.
Import Py Telemetry TelemetryData.

(** *** The exporter *)

Lemma unrecognized_scheme_raises py_int py_open_w url p :
  urlparse url = Returns p ->
  scheme p <> "jaeger" -> scheme p <> "file" ->
  get_trace_exporter py_int py_open_w (TraceExporter_init url)
  = (Raises (NotImplementedError ("Invalid tracer type " +:+ scheme p)),
     TraceExporter_init url).
Proof.
  intros Hp Hj Hf. unfold get_trace_exporter. cbn [exporter_url TraceExporter_init].
  rewrite Hp.
  destruct (String.eqb_spec (scheme p) "jaeger") as [E|_]; [contradiction|].
  destruct (String.eqb_spec (scheme p) "file") as [E|_]; [contradiction|].
  reflexivity.
Qed.

Example zipkin_rejected py_int py_open_w :
  get_trace_exporter py_int py_open_w (TraceExporter_init "zipkin:collector:9411")
  = (Raises (NotImplementedError "Invalid tracer type zipkin"),
     TraceExporter_init "zipkin:collector:9411").
Proof. reflexivity. Qed.

Example file_selects_console_exporter py_int :
  get_trace_exporter py_int sample_open_w (TraceExporter_init "file:/tmp/trace.json")
  = (Returns (ConsoleSpanExporter {| file_name := "/tmp/trace.json" |}),
     {| exporter_url := "file:/tmp/trace.json";
        _file := Some {| file_name := "/tmp/trace.json" |} |}).
Proof. reflexivity. Qed.

Example jaeger_with_authority_selects_jaeger py_open_w :
  get_trace_exporter sample_int py_open_w (TraceExporter_init "jaeger://jaeger-host:8631")
  = (Returns (JaegerExporter "jaeger-host" 8631 true),
     TraceExporter_init "jaeger://jaeger-host:8631").
Proof. reflexivity. Qed.

(** C5. On the documented form [jaeger:<host>:<port>] the exporter is not
    built: [urlparse] puts everything after the scheme into the path and
    leaves the network location empty, so the second item of
    [netloc.split(':')] does not exist and [_get_jaeger_exporter] raises
    [IndexError], whatever [int] and [open] do. *)
Theorem jaeger_documented_form_raises
  (py_int : string -> result Z) (py_open_w : string -> result File) :
  urlparse "jaeger:jaeger-host:8631"
  = Returns {| scheme := "jaeger"; netloc := ""; path := "jaeger-host:8631" |}
  /\ get_trace_exporter py_int py_open_w (TraceExporter_init "jaeger:jaeger-host:8631")
     = (Raises IndexError, TraceExporter_init "jaeger:jaeger-host:8631").
Proof. split; reflexivity. Qed.

(** *** Construction *)

Lemma init_without_url py_int py_open_w definition settings :
  url_missing settings ->
  __init__ py_int py_open_w definition settings
  = Returns {| name := agent_name definition; _agent_settings := settings;
               _tracing_collector_url := None; _exporter := None;
               _span_processor := None; tracer := None |}.
Proof.
  intros [H|H]; unfold __init__; rewrite H; reflexivity.
Qed.

Lemma init_with_url py_int py_open_w definition settings self :
  url_configured settings ->
  __init__ py_int py_open_w definition settings = Returns self ->
  name self = agent_name definition
  /\ is_Some (_tracing_collector_url self)
  /\ is_Some (_span_processor self) /\ is_Some (tracer self).
Proof.
  intros (u & Hu & Hne). unfold __init__. rewrite Hu.
  destruct (String.eqb_spec u "") as [E|_]; [contradiction|]. cbn [negb].
  destruct (get_trace_exporter _ _ _) as [[se|e] ex]; [|discriminate].
  intros [= <-]. cbn. eauto.
Qed.

Lemma url_missing_or_configured settings :
  url_missing settings \/ url_configured settings.
Proof.
  unfold url_missing, url_configured.
  destruct (tracing_collector_url settings) as [u|]; [|left; left; reflexivity].
  destruct (String.eqb_spec u "") as [->|Hne]; [left; right; reflexivity|].
  right. exists u. split; [reflexivity|exact Hne].
Qed.

(** C10. An agent built without a collector URL (absent or empty) has no
    exporter, no span processor and no tracer, and flushing it raises
    [AttributeError]; so a flush that returns means the settings named a
    collector. *)
Theorem force_flush_needs_url
  (py_int : string -> result Z) (py_open_w : string -> result File)
  (definition : AgentDefinition) (settings : AgentSettings) :
  (url_missing settings ->
   exists self,
     __init__ py_int py_open_w definition settings = Returns self
     /\ _tracing_collector_url self = None
     /\ _exporter self = None /\ _span_processor self = None
     /\ tracer self = None
     /\ force_flush_file_exporter self = Raises (AttributeError "_span_processor"))
  /\ (forall self,
        __init__ py_int py_open_w definition settings = Returns self ->
        force_flush_file_exporter self = Returns tt ->
        url_configured settings).
Proof.
  split.
  - intros Hm. eexists. split; [now apply init_without_url|].
    repeat split; reflexivity.
  - intros self Hinit Hflush.
    destruct (url_missing_or_configured settings) as [Hm|Hc]; [|exact Hc].
    rewrite (init_without_url _ _ _ _ Hm) in Hinit.
    injection Hinit as <-. discriminate Hflush.
Qed.

Lemma force_flush_needs_url_witness :
  (exists self,
     __init__ sample_int sample_open_w sample_definition (settings_with (Some ""))
     = Returns self
     /\ force_flush_file_exporter self = Raises (AttributeError "_span_processor"))
  /\ url_configured (settings_with (Some "file:/tmp/trace.json")).
Proof.
  split.
  - destruct (force_flush_needs_url sample_int sample_open_w sample_definition
                (settings_with (Some ""))) as [H _].
    destruct H as (self & Hi & _ & _ & _ & _ & Hf); [right; reflexivity|].
    exists self. split; assumption.
  - destruct (force_flush_needs_url sample_int sample_open_w sample_definition
                (settings_with (Some "file:/tmp/trace.json"))) as [_ H].
    eapply H; reflexivity.
Defined.

(** *** Processing and emitting *)

Lemma sample_traced_agent_init :
  __init__ sample_int sample_open_w sample_definition
           (settings_with (Some "file:/tmp/trace.json"))
  = Returns sample_traced_agent.
Proof. reflexivity. Qed.

Lemma sample_url_configured :
  url_configured (settings_with (Some "file:/tmp/trace.json")).
Proof. eexists. split; [reflexivity|discriminate]. Defined.

(** C4. Without a collector URL, [process_message] and [emit] are the
    wrapped agent's own methods: one invocation each, outside any span, the
    result (value or error) handed on as it is, the spans untouched. *)
Theorem untraced_passes_through
  (py_int : string -> result Z) (py_open_w : string -> result File)
  (super_process_message : string -> list Byte.byte -> result unit)
  (super_emit : string -> list (string * string) -> result unit)
  (definition : AgentDefinition) (settings : AgentSettings)
  (self : OpenTelemetryMixin) :
  url_missing settings ->
  __init__ py_int py_open_w definition settings = Returns self ->
  (forall selector message w,
     process_message super_process_message self selector message w
     = (super_process_message selector message,
        {| current_spans := current_spans w; ended_spans := ended_spans w;
           calls := calls w
                    ++ [ProcessMessageCall selector message (current_name w)] |}))
  /\ (forall selector data w,
        emit super_emit self selector data w
        = (super_emit selector data,
           {| current_spans := current_spans w; ended_spans := ended_spans w;
              calls := calls w ++ [EmitCall selector data (current_name w)] |})).
Proof.
  intros Hm Hinit. rewrite (init_without_url _ _ _ _ Hm) in Hinit.
  injection Hinit as <-. split; reflexivity.
Qed.

Lemma untraced_passes_through_witness :
  process_message raising_handler
    {| name := "nmap"; _agent_settings := settings_with None;
       _tracing_collector_url := None; _exporter := None;
       _span_processor := None; tracer := None |}
    "v3.asset.ip" [] empty_world
  = (Raises (ValueError "boom"),
     {| current_spans := []; ended_spans := [];
        calls := [ProcessMessageCall "v3.asset.ip" [] None] |}).
Proof.
  apply (untraced_passes_through sample_int sample_open_w raising_handler
           returning_emit sample_definition (settings_with None)).
  - left. reflexivity.
  - reflexivity.
Defined.

(** The claim C3 as worded fails when the handler raises: the span that is
    closed carries the error but neither of the two attributes, which are
    set only after the handler has returned. *)
Lemma raising_handler_span_has_no_attributes :
  process_message raising_handler sample_traced_agent
                  "v3.report.vulnerability" [] empty_world
  = (Raises (ValueError "boom"),
     {| current_spans := []; ended_spans := [error_span];
        calls := [ProcessMessageCall "v3.report.vulnerability" []
                                     (Some "process_message")] |})
  /\ ~ In ("agent.name", "nmap") (span_attributes error_span)
  /\ ~ In ("message.selector", "v3.report.vulnerability")
          (span_attributes error_span).
Proof. split; [reflexivity|]. split; intros []. Qed.

(** C3 (amended). With a collector URL, [process_message] starts a span
    [process_message] and runs the handler while that span is current.  When
    the handler returns, [agent.name] and [message.selector] are attached and
    the span is closed.  When the handler raises, the error is recorded on
    the span, the span is closed without the two attributes, and the error
    goes on to the caller. *)
Theorem traced_process_message
  (py_int : string -> result Z) (py_open_w : string -> result File)
  (super_process_message : string -> list Byte.byte -> result unit)
  (definition : AgentDefinition) (settings : AgentSettings)
  (self : OpenTelemetryMixin) (selector : string) (message : list Byte.byte)
  (w : World) :
  url_configured settings ->
  __init__ py_int py_open_w definition settings = Returns self ->
  process_message super_process_message self selector message w
  = match super_process_message selector message with
    | Returns _ =>
        (Returns tt,
         {| current_spans := current_spans w;
            ended_spans :=
              ended_spans w
              ++ [ {| span_name := "process_message";
                      span_attributes := [("agent.name", agent_name definition);
                                          ("message.selector", selector)];
                      span_exceptions := []; span_status_error := false |} ];
            calls := calls w ++ [ProcessMessageCall selector message
                                                    (Some "process_message")] |})
    | Raises e =>
        (Raises e,
         {| current_spans := current_spans w;
            ended_spans :=
              ended_spans w
              ++ [ {| span_name := "process_message"; span_attributes := [];
                      span_exceptions := [e]; span_status_error := true |} ];
            calls := calls w ++ [ProcessMessageCall selector message
                                                    (Some "process_message")] |})
    end.
Proof.
  intros (u & Hu & Hne). unfold __init__. rewrite Hu.
  destruct (String.eqb_spec u "") as [E|_]; [contradiction|]. cbn [negb].
  destruct (get_trace_exporter _ _ _) as [[se|e] ex]; [|discriminate].
  intros [= <-].
  unfold process_message, start_as_current_span, bindx, call_super_process_message.
  cbn. destruct (super_process_message selector message) as [[]|e]; reflexivity.
Qed.

Lemma traced_process_message_witness :
  process_message returning_handler sample_traced_agent
                  "v3.report.vulnerability" [] empty_world
  = (Returns tt,
     {| current_spans := [];
        ended_spans :=
          [ {| span_name := "process_message";
               span_attributes := [("agent.name", "nmap");
                                   ("message.selector", "v3.report.vulnerability")];
               span_exceptions := []; span_status_error := false |} ];
        calls := [ProcessMessageCall "v3.report.vulnerability" []
                                     (Some "process_message")] |}).
Proof.
  apply (traced_process_message sample_int sample_open_w returning_handler
           sample_definition (settings_with (Some "file:/tmp/trace.json"))
           sample_traced_agent "v3.report.vulnerability" [] empty_world).
  - exact sample_url_configured.
  - reflexivity.
Defined.



End TelemetrySpec.

(** ** Resolvers and mutations *)

Module OxoSpec.
Import Py Oxo OxoData.

(** *** Unknown ids *)

(** C6. Retrieving or stopping a scan whose id is not in the table, and
    deleting an agent group whose id is not in the table, raise the
    GraphQL error [... not found.] at once: the world is left as it was, so
    the runtime is not asked to stop anything, nothing is deleted and nothing
    is tried again. *)
Theorem unknown_id_not_found
  (runtime_stop : string -> exec Database unit) (w : World) :
  (forall scan_id,
     scans (db w) !! scan_id = None ->
     resolve_scan scan_id w = (Raises (GraphQLError "Scan not found."), w)
     /\ StopScanMutation_mutate runtime_stop scan_id w
        = (Raises (GraphQLError "Scan not found."), w))
  /\ (forall agent_group_id,
        agent_groups (db w) !! agent_group_id = None ->
        DeleteAgentGroupMutation_mutate agent_group_id w
        = (Raises (GraphQLError "AgentGroup not found."), w)).
Proof.
  split.
  - intros scan_id H. unfold resolve_scan, StopScanMutation_mutate.
    rewrite H. split; reflexivity.
  - intros agent_group_id H. unfold DeleteAgentGroupMutation_mutate.
    rewrite H. reflexivity.
Qed.

Lemma unknown_id_not_found_witness :
  StopScanMutation_mutate stop_ok 42 (world_of sample_db)
  = (Raises (GraphQLError "Scan not found."), world_of sample_db)
  /\ DeleteAgentGroupMutation_mutate 5 (world_of sample_db)
     = (Raises (GraphQLError "AgentGroup not found."), world_of sample_db).
Proof.
  destruct (unknown_id_not_found stop_ok (world_of sample_db)) as [Hs Hg].
  split.
  - apply (Hs 42). reflexivity.
  - apply (Hg 5). reflexivity.
Defined.

(** A known scan is handed to the runtime, once. *)
Example known_scan_is_stopped :
  StopScanMutation_mutate stop_ok 7 (world_of sample_db)
  = (Returns {| scan_id := 7; scan_title := "old"; scan_agent_group_id := None |},
     {| db := sample_db; files := ∅; uuids_drawn := 0;
        runtime_log := [StopCall "7"] |}).
Proof. reflexivity. Qed.

(** *** Installing agents *)

(** While agents are merely missing from the store, the loop goes through
    the whole list and returns nothing. *)
Lemma install_agents_loop_total install ags : forall w,
  forallb (fun ag => not_found_or_ok (install (key ag) (version ag))) ags = true ->
  install_agents_loop install ags w
  = (Returns tt,
     {| db := db w; files := files w; uuids_drawn := uuids_drawn w;
        runtime_log := runtime_log w
                       ++ map (fun ag => InstallAgentCall (key ag) (version ag)) ags |}).
Proof.
  induction ags as [|ag ags IH]; intros w H; simpl.
  - unfold ret. rewrite app_nil_r. destruct w; reflexivity.
  - simpl in H. apply andb_true_iff in H as [Hag Hrest].
    unfold bindx, try_except, call_install_agent.
    destruct (install (key ag) (version ag)) as [[]|e]; simpl in Hag.
    + rewrite IH by exact Hrest. simpl. rewrite <- app_assoc. reflexivity.
    + rewrite Hag. unfold ret. rewrite IH by exact Hrest. simpl.
      rewrite <- app_assoc. reflexivity.
Qed.

(** C7. A group whose first agent is not on the store: the second agent is
    still installed, but [_install_agents] returns [None] without a trace of
    the failed key, exactly as it does when every agent is on the store. *)
Theorem install_agents_drops_failed_key :
  _install_agents (Returns tt) store_lacking two_agents (world_of empty_db)
  = (Returns tt,
     {| db := empty_db; files := ∅; uuids_drawn := 0;
        runtime_log := [ InstallCall;
                         InstallAgentCall "agent/missing" None;
                         InstallAgentCall "agent/ostorlab/nmap" (Some "1.0") ] |})
  /\ _install_agents (Returns tt) store_lacking two_agents (world_of empty_db)
     = _install_agents (Returns tt) store_complete two_agents (world_of empty_db).
Proof. split; reflexivity. Qed.

(** An unreachable backend does fail the whole install. *)
Example install_agents_http_error :
  _install_agents (Raises (HTTPError "connection refused")) store_complete
                  two_agents (world_of empty_db)
  = (Raises (GraphQLError "Could not install the agents: connection refused"),
     {| db := empty_db; files := ∅; uuids_drawn := 0;
        runtime_log := [InstallCall] |}).
Proof. reflexivity. Qed.

(** *** Creating assets *)

Section CreateAssets.
Variable create : NewAsset -> Database -> Asset * Database.
Variable uuid4 : nat -> string.
Variable upload_path : string.
Variable str_asset : OxoAssetInputType -> string.

Local Abbreviation validate := (_validate str_asset).
Local Abbreviation loop := (create_assets_loop create uuid4 upload_path str_asset).
Local Abbreviation mutate :=
  (CreateAssetsMutation_mutate create uuid4 upload_path str_asset).
Local Abbreviation valid_inputs := (valid_inputs_of str_asset).
Local Abbreviation error_messages := (error_messages_of str_asset).

Lemma error_messages_valid assets : error_messages (valid_inputs assets) = [].
Proof.
  unfold error_messages_of, valid_inputs_of.
  induction assets as [|a assets IH]; [reflexivity|].
  rewrite filter_cons. destruct (decide (validate a = None)) as [E|E]; [|exact IH].
  simpl. rewrite E. exact IH.
Qed.

(** The loop treats the invalid inputs as if they were not there, apart from
    collecting their messages. *)
Lemma loop_skips_invalid assets : forall created errors w,
  loop assets created errors w
  = (fst (fst (loop (valid_inputs assets) created [] w)),
     errors ++ error_messages assets,
     snd (loop (valid_inputs assets) created [] w)).
Proof.
  unfold valid_inputs_of, error_messages_of.
  induction assets as [|a assets IH]; intros created errors w.
  - simpl. rewrite app_nil_r. reflexivity.
  - rewrite filter_cons. simpl.
    destruct (validate a) as [m|] eqn:E.
    + destruct (decide (Some m = None)) as [?|_]; [discriminate|].
      rewrite IH, <- app_assoc. reflexivity.
    + destruct (decide (None = None)) as [_|?]; [|contradiction].
      simpl. rewrite E.
      destruct (create_targets create uuid4 upload_path a created w) as [created' w'].
      rewrite IH. reflexivity.
Qed.

(** A valid input has one target, so one asset is created for it. *)
Lemma create_targets_one a created w :
  validate a = None ->
  length (fst (create_targets create uuid4 upload_path a created w))
  = S (length created).
Proof.
  destruct a as [[s|] [f|] [s'|] [f'|] [l|] [i|]]; intros H;
    try discriminate H; clear H;
    unfold create_targets, do_create, write_upload; cbn;
    repeat match goal with
           | |- context [create ?n ?d] => destruct (create n d)
           end;
    cbn; rewrite length_app; cbn; lia.
Qed.

Lemma loop_valid_length assets : forall created w,
  length (fst (fst (loop (valid_inputs assets) created [] w)))
  = (length created + length (valid_inputs assets))%nat.
Proof.
  unfold valid_inputs_of.
  induction assets as [|a assets IH]; intros created w.
  - simpl. lia.
  - rewrite filter_cons.
    destruct (decide (validate a = None)) as [E|E]; [|apply IH].
    simpl. rewrite E.
    pose proof (create_targets_one a created w E) as Hone.
    destruct (create_targets create uuid4 upload_path a created w) as [created' w'].
    rewrite IH. simpl in Hone. lia.
Qed.

(** One loop step on a valid input is one step of [persist]. *)
Lemma create_targets_persist a created w :
  validate a = None ->
  exists row w1,
    OxoForms.persist_one create uuid4 upload_path a w = Some (row, w1)
    /\ create_targets create uuid4 upload_path a created w = (created ++ [row], w1).
Proof.
  destruct a as [[s|] [f|] [s'|] [f'|] [l|] [i|]]; intros H;
    try discriminate H; clear H;
    unfold create_targets, do_create, write_upload, with_db,
      OxoForms.persist_one, network_text; cbn;
    match goal with
    | |- context [create ?n ?d] => destruct (create n d) as [row d1]
    end;
    cbn; eexists; eexists; split; reflexivity.
Qed.

Lemma loop_persist inputs : forall created w,
  (forall a, In a inputs -> validate a = None) ->
  loop inputs created [] w
  = (created ++ fst (OxoForms.persist create uuid4 upload_path inputs w), [],
     snd (OxoForms.persist create uuid4 upload_path inputs w)).
Proof.
  induction inputs as [|a inputs IH]; intros created w H.
  - cbn. rewrite app_nil_r. reflexivity.
  - assert (validate a = None) as Ha by (apply H; now left).
    cbn [create_assets_loop OxoForms.persist]. rewrite Ha.
    destruct (create_targets_persist a created w Ha) as (row & w1 & Hp & Hc).
    rewrite Hp, Hc, IH by (intros b Hb; apply H; now right).
    destruct (OxoForms.persist create uuid4 upload_path inputs w1) as [rows w2].
    cbn. rewrite <- app_assoc. reflexivity.
Qed.

Lemma persist_one_creates a w row w1 :
  OxoForms.persist_one create uuid4 upload_path a w = Some (row, w1) ->
  exists n, row = fst (create n (db w)) /\ db w1 = snd (create n (db w)).
Proof.
  destruct a as [[s|] [f|] [s'|] [f'|] [l|] [i|]];
    unfold OxoForms.persist_one; cbn; intros H; try discriminate H;
    injection H as <- <-; eexists; split; reflexivity.
Qed.

Lemma persist_appends inputs : forall w,
  OxoForms.create_appends create ->
  assets (db (snd (OxoForms.persist create uuid4 upload_path inputs w)))
  = assets (db w) ++ fst (OxoForms.persist create uuid4 upload_path inputs w).
Proof.
  induction inputs as [|a inputs IH]; intros w Hc.
  - cbn. rewrite app_nil_r. reflexivity.
  - cbn [OxoForms.persist].
    destruct (OxoForms.persist_one create uuid4 upload_path a w) as [[row w1]|] eqn:E;
      [|apply IH, Hc].
    destruct (persist_one_creates a w row w1 E) as (n & Hrow & Hdb).
    specialize (IH w1 Hc).
    destruct (OxoForms.persist create uuid4 upload_path inputs w1) as [rows w2].
    cbn [fst snd] in *. rewrite IH, Hdb, Hc, <- Hrow, <- app_assoc. reflexivity.
Qed.

(** C8. When some input is invalid, [mutate] raises [Invalid assets: ...]
    with the message of every invalid input, and by then the assets of the
    valid inputs have been created: the world it leaves is the one reached by
    storing, for each valid input in turn, its upload (if it carries a file)
    and running [create] on its one target, which is also the world of a
    call on the valid inputs alone, where one asset per valid input is
    returned.  With a [create] that appends its row, those assets are the
    new rows of the asset table. *)
Theorem create_assets_not_atomic (assets : list OxoAssetInputType) (w : World) :
  (exists a, In a assets /\ validate a <> None) ->
  exists created w',
    mutate (valid_inputs assets) w = (Returns created, w')
    /\ length created = length (valid_inputs assets)
    /\ mutate assets w
       = (Raises (GraphQLError ("Invalid assets: "
                                +:+ String.concat newline (error_messages assets))),
          w')
    /\ (forall a m, In a assets -> validate a = Some m -> In m (error_messages assets))
    /\ OxoForms.persist create uuid4 upload_path (valid_inputs assets) w
       = (created, w')
    /\ (OxoForms.create_appends create ->
        Oxo.assets (db w') = Oxo.assets (db w) ++ created).
Proof.
  intros (a0 & Hin0 & Hbad0).
  exists (fst (fst (loop (valid_inputs assets) [] [] w))),
         (snd (loop (valid_inputs assets) [] [] w)).
  assert (forall a m, In a assets -> validate a = Some m ->
                      In m (error_messages assets)) as Hall.
  { intros a m Hin Hm. apply list_elem_of_In. unfold error_messages_of.
    apply list_elem_of_omap. exists a. split; [now apply list_elem_of_In|exact Hm]. }
  assert (forall a, In a (valid_inputs assets) -> validate a = None) as Hvalid.
  { intros a Ha. apply list_elem_of_In in Ha. unfold valid_inputs_of in Ha.
    apply list_elem_of_filter in Ha as [Ha _]. exact Ha. }
  pose proof (loop_persist (valid_inputs assets) [] w Hvalid) as Hloop.
  split; [|split; [|split; [|split; [|split]]]].
  - unfold CreateAssetsMutation_mutate.
    rewrite (loop_skips_invalid (valid_inputs assets)).
    rewrite error_messages_valid. simpl.
    unfold valid_inputs_of. rewrite list_filter_filter.
    rewrite (list_filter_iff _ (fun a => validate a = None)); [reflexivity|].
    intros x. tauto.
  - rewrite loop_valid_length. reflexivity.
  - unfold CreateAssetsMutation_mutate. rewrite loop_skips_invalid. simpl.
    destruct (validate a0) as [m0|] eqn:E0; [|contradiction].
    pose proof (Hall a0 m0 Hin0 E0) as Hm0.
    destruct (error_messages assets) as [|m ms]; [destruct Hm0|]. reflexivity.
  - exact Hall.
  - rewrite Hloop. cbn [fst snd app].
    destruct (OxoForms.persist create uuid4 upload_path (valid_inputs assets) w);
      reflexivity.
  - intros Hc. rewrite Hloop. cbn [fst snd app].
    apply persist_appends, Hc.
Qed.

End CreateAssets.

Lemma create_assets_not_atomic_witness :
  CreateAssetsMutation_mutate append_create (fun _ => "u") "/uploads"
    sample_str_asset [no_target; store_input; two_targets] (world_of empty_db)
  = (Raises (GraphQLError
       ("Invalid assets: Asset {} input is missing target." +:+ newline
        +:+ "Single target input must be defined for asset {'android_store': ..}.")),
     world_of {| scans := ∅; agent_groups := ∅; agent_arguments := [];
                 assets := [ {| asset_id := 1; asset_type := "android_store";
                                asset_scan_id := None; asset_path := "";
                                asset_package_name := "a.b.c";
                                asset_bundle_id := ""; asset_networks := "";
                                asset_links := "" |} ] |}).
Proof.
  destruct (create_assets_not_atomic append_create (fun _ => "u") "/uploads"
              sample_str_asset [no_target; store_input; two_targets]
              (world_of empty_db))
    as (created & w' & Hvalid & _ & Hall & _).
  - exists no_target. split; [left; reflexivity|discriminate].
  - rewrite Hall. injection Hvalid as _ <-. reflexivity.
Defined.

(** *** Running a scan *)

Section RunScan.
Variable runtime_install : result unit.
Variable runtime_can_run : AgentGroupDefinition -> result pyval.
Variable runtime_scan :
  string -> AgentGroupDefinition -> list ScanAsset -> exec Database Scan.
Variable install_agent_install : string -> option string -> result unit.
Variable is_apk is_xapk is_aab : list Byte.byte -> bool.
Variable ip_network : string -> result IPNetwork.
Variable json_loads_list : string -> result (list string).
Variable json_loads_link : string -> result (option string * option string).

Local Abbreviation prepare_assets :=
  (_prepare_assets is_apk is_xapk is_aab ip_network json_loads_list json_loads_link).
Local Abbreviation run_scan :=
  (RunScanMutation_mutate runtime_install runtime_can_run runtime_scan
     install_agent_install is_apk is_xapk is_aab ip_network json_loads_list
     json_loads_link).

(** The two preparation steps only read. *)
Lemma prepare_agent_group_reads agent_group_id w :
  snd (_prepare_agent_group agent_group_id w) = w.
Proof.
  unfold _prepare_agent_group. destruct (agent_groups (db w) !! agent_group_id);
    reflexivity.
Qed.

Lemma prepare_assets_reads asset_ids w : snd (prepare_assets asset_ids w) = w.
Proof.
  unfold _prepare_assets. destruct (Nat.eqb _ 0); reflexivity.
Qed.

(** C9. When the agent group and the assets are found and [can_run] returns
    anything but [True], [mutate] returns [None] and the world is as before:
    no call reached the runtime or the installer, no scan row was written and
    no error was raised. *)
Theorem run_scan_not_runnable_returns_none
  (scan : OxoAgentScanInputType) (w : World)
  (agent_group : AgentGroupDefinition) (scan_assets : list ScanAsset)
  (v : pyval) :
  fst (_prepare_agent_group (input_agent_group_id scan) w) = Returns agent_group ->
  fst (prepare_assets (input_asset_ids scan) w) = Returns scan_assets ->
  runtime_can_run agent_group = Returns v ->
  v <> PyTrue ->
  run_scan scan w = (Returns None, w).
Proof.
  intros Hg Ha Hc Hv. unfold RunScanMutation_mutate, bindx.
  pose proof (prepare_agent_group_reads (input_agent_group_id scan) w) as Hgw.
  destruct (_prepare_agent_group (input_agent_group_id scan) w) as [rg wg].
  simpl in Hg, Hgw. subst rg wg.
  pose proof (prepare_assets_reads (input_asset_ids scan) w) as Haw.
  destruct (prepare_assets (input_asset_ids scan) w) as [ra wa].
  simpl in Ha, Haw. subst ra wa.
  unfold try_except. rewrite Hc.
  destruct v; try reflexivity. contradiction.
Qed.

End RunScan.

Lemma run_scan_not_runnable_returns_none_witness :
  RunScanMutation_mutate (Returns tt) cannot_run scan_creates store_complete
    never_apk never_apk never_apk no_ip no_json_list no_json_link
    sample_scan_input (world_of sample_db)
  = (Returns None, world_of sample_db).
Proof.
  apply (run_scan_not_runnable_returns_none (Returns tt) cannot_run scan_creates
           store_complete never_apk never_apk never_apk no_ip no_json_list
           no_json_link sample_scan_input (world_of sample_db)
           {| name := "nmap group"; description := "port scan";
              agents := [ {| key := "agent/ostorlab/nmap"; version := Some "1.0";
                             args := [] |} ] |}
           [AndroidStore "a.b.c"] PyFalse).
  - reflexivity.
  - reflexivity.
  - reflexivity.
  - discriminate.
Defined.

(** The same request when [can_run] returns [True]: the agent is installed,
    the scan is created, the returned scan carries the agent group and the
    asset is tied to the scan. *)
Example run_scan_runnable :
  RunScanMutation_mutate (Returns tt) can_run scan_creates store_complete
    never_apk never_apk never_apk no_ip no_json_list no_json_link
    sample_scan_input (world_of sample_db)
  = (Returns (Some {| scan_id := 8; scan_title := "Test Scan";
                      scan_agent_group_id := Some 1 |}),
     {| db := {| scans := <[8 := {| scan_id := 8; scan_title := "Test Scan";
                                   scan_agent_group_id := None |}]>
                            (scans sample_db);
                 agent_groups := agent_groups sample_db;
                 agent_arguments := [];
                 assets := [set_asset_scan_id 8 store_asset] |};
        files := ∅; uuids_drawn := 0;
        runtime_log := [ InstallCall;
                         InstallAgentCall "agent/ostorlab/nmap" (Some "1.0");
                         ScanCall "Test Scan" ] |}).
Proof. vm_compute. reflexivity. Qed.



End OxoSpec.

(** ** More on the exporter and the mixin *)

Module TelemetryMore.
Import Py Telemetry TelemetryData TelemetryForms.

(** *** Texts *)

Lemma str_forallb_app p a b :
  str_forallb p (a +:+ b) = str_forallb p a && str_forallb p b.
Proof.
  induction a as [|c a IH]; simpl; [reflexivity|].
  rewrite IH. now rewrite andb_assoc.
Qed.

Lemma str_forallb_impl (p q : ascii -> bool) s :
  (forall c, p c = true -> q c = true) ->
  str_forallb p s = true -> str_forallb q s = true.
Proof.
  intros Hpq. induction s as [|c s IH]; simpl; [reflexivity|].
  intros H. apply andb_true_iff in H as [Hc Hs].
  rewrite (Hpq c Hc), (IH Hs). reflexivity.
Qed.

Lemma span_until_clean p s :
  str_forallb (fun c => negb (p c)) s = true -> span_until p s = (s, "").
Proof.
  induction s as [|c s IH]; simpl; [reflexivity|].
  intros H. apply andb_true_iff in H as [Hc Hs].
  apply negb_true_iff in Hc. rewrite Hc, (IH Hs). reflexivity.
Qed.

Lemma span_until_hit p a c b :
  str_forallb (fun c => negb (p c)) a = true -> p c = true ->
  span_until p (a +:+ String c b) = (a, String c b).
Proof.
  intros Ha Hc. induction a as [|d a IH]; simpl.
  - rewrite Hc. reflexivity.
  - simpl in Ha. apply andb_true_iff in Ha as [Hd Ha].
    apply negb_true_iff in Hd. rewrite Hd, (IH Ha). reflexivity.
Qed.

Lemma str_filter_keep p s : str_forallb p s = true -> str_filter p s = s.
Proof.
  induction s as [|c s IH]; simpl; [reflexivity|].
  intros H. apply andb_true_iff in H as [Hc Hs]. rewrite Hc, (IH Hs). reflexivity.
Qed.

Lemma str_contains_clean c s :
  str_forallb (fun d => negb (Ascii.eqb c d)) s = true -> str_contains c s = false.
Proof. intros H. unfold str_contains. rewrite H. reflexivity. Qed.

Lemma str_split_clean sep s :
  str_forallb (fun c => negb (Ascii.eqb c sep)) s = true -> str_split sep s = [s].
Proof.
  induction s as [|c s IH]; simpl; [reflexivity|].
  intros H. apply andb_true_iff in H as [Hc Hs].
  apply negb_true_iff in Hc. rewrite Hc, (IH Hs). reflexivity.
Qed.

Lemma str_split_hit sep a b :
  str_forallb (fun c => negb (Ascii.eqb c sep)) a = true ->
  str_split sep (a +:+ String sep b) = a :: str_split sep b.
Proof.
  induction a as [|c a IH]; simpl.
  - intros _. rewrite Ascii.eqb_refl. reflexivity.
  - intros H. apply andb_true_iff in H as [Hc Ha].
    apply negb_true_iff in Hc. rewrite Hc, (IH Ha). reflexivity.
Qed.

(** What a plain text is free of, one reading per use. *)
Lemma special_cases c :
  negb (url_special c) = true ->
  negb (Ascii.eqb ":" c) = true
  /\ negb (Ascii.eqb c ":") = true
  /\ negb (Ascii.eqb c "/" || Ascii.eqb c "?" || Ascii.eqb c "#") = true
  /\ negb (Ascii.eqb "[" c) = true /\ negb (Ascii.eqb "]" c) = true
  /\ negb (Ascii.eqb "#" c) = true /\ negb (Ascii.eqb "?" c) = true
  /\ negb (unsafe_url_byte c) = true.
Proof.
  destruct c as [[] [] [] [] [] [] [] []]; vm_compute; intros H;
    try discriminate H; repeat split.
Qed.

Lemma path_cases c :
  path_char c = true ->
  negb (Ascii.eqb "#" c) = true /\ negb (Ascii.eqb "?" c) = true
  /\ negb (unsafe_url_byte c) = true.
Proof.
  destruct c as [[] [] [] [] [] [] [] []]; vm_compute; intros H;
    try discriminate H; repeat split.
Qed.

Lemma cut_at_clean c s :
  str_forallb (fun d => negb (Ascii.eqb c d)) s = true -> cut_at c s = (s, "").
Proof. intros H. unfold cut_at. rewrite (span_until_clean _ _ H). reflexivity. Qed.

(** *** How [urlparse] takes a scheme off *)

Lemma alpha_cases c :
  is_alpha c = true -> c0_control_or_space c = false.
Proof.
  destruct c as [[] [] [] [] [] [] [] []]; vm_compute; intros H;
    try discriminate H; reflexivity.
Qed.

Lemma scheme_char_cases c :
  scheme_char c = true ->
  negb (unsafe_url_byte c) = true /\ negb (Ascii.eqb ":" c) = true.
Proof.
  destruct c as [[] [] [] [] [] [] [] []]; vm_compute; intros H;
    try discriminate H; split; reflexivity.
Qed.

(** A text that starts with a letter and goes on in scheme characters up to
    a colon has that text, lower-cased, as its scheme; the rest is split into
    network location and path. *)
Lemma urlparse_scheme c sch rest :
  is_alpha c = true -> str_forallb scheme_char (String c sch) = true ->
  str_forallb (fun c => negb (unsafe_url_byte c)) rest = true ->
  urlparse (String c sch +:+ String ":" rest)
  = let (loc, url2) :=
      match rest with
      | String "/" (String "/" after) =>
          span_until (fun c => Ascii.eqb c "/" || Ascii.eqb c "?"
                               || Ascii.eqb c "#") after
      | _ => (EmptyString, rest)
      end in
    if xorb (str_contains "[" loc) (str_contains "]" loc)
    then Raises (ValueError "Invalid IPv6 URL")
    else Returns {| scheme := lower (String c sch); netloc := loc;
                    path := fst (cut_at "?" (fst (cut_at "#" url2))) |}.
Proof.
  intros Ha Hs Hr.
  assert (str_forallb (fun c => negb (Ascii.eqb ":" c)) (String c sch) = true) as Hnc
    by (revert Hs; apply str_forallb_impl; intros d Hd; apply scheme_char_cases, Hd).
  assert (str_forallb (fun c => negb (unsafe_url_byte c)) (String c sch) = true) as Hsafe
    by (revert Hs; apply str_forallb_impl; intros d Hd; apply scheme_char_cases, Hd).
  unfold urlparse.
  replace (lstrip c0_control_or_space (String c sch +:+ String ":" rest))
    with (String c sch +:+ String ":" rest)
    by (simpl; rewrite (alpha_cases c Ha); reflexivity).
  rewrite str_filter_keep
    by (rewrite str_forallb_app, Hsafe; cbn [str_forallb andb]; rewrite Hr; reflexivity).
  rewrite (span_until_hit (Ascii.eqb ":") (String c sch) ":" rest Hnc eq_refl).
  change (String c sch +:+ String ":" rest)
    with (String c (sch +:+ String ":" rest)).
  cbv iota. rewrite Ha, Hs. cbn [andb].
  reflexivity.
Qed.

(** A text that does not start with two slashes has no network location. *)
Lemma no_authority rest :
  String.prefix "//" rest = false ->
  match rest with
  | String "/" (String "/" after) =>
      span_until (fun c => Ascii.eqb c "/" || Ascii.eqb c "?" || Ascii.eqb c "#") after
  | _ => (EmptyString, rest)
  end = (EmptyString, rest).
Proof.
  destruct rest as [|a rest]; [reflexivity|].
  destruct a as [[] [] [] [] [] [] [] []]; try reflexivity.
  destruct rest as [|b rest]; [reflexivity|].
  destruct b as [[] [] [] [] [] [] [] []]; try reflexivity.
  cbn. destruct rest; discriminate.
Qed.

Lemma plain_no_colon s :
  plain s = true -> str_forallb (fun c => negb (Ascii.eqb c ":")) s = true.
Proof. apply str_forallb_impl. intros c Hc. apply special_cases, Hc. Qed.

Lemma plain_no_bracket b s :
  b = "["%char \/ b = "]"%char -> plain s = true -> str_contains b s = false.
Proof.
  intros Hb Hs. apply str_contains_clean. revert Hs. apply str_forallb_impl.
  intros c Hc. destruct Hb as [-> | ->]; apply special_cases, Hc.
Qed.

Lemma plain_no_delimiter s :
  plain s = true ->
  str_forallb (fun c => negb (Ascii.eqb c "/" || Ascii.eqb c "?" || Ascii.eqb c "#")) s
  = true.
Proof. apply str_forallb_impl. intros c Hc. apply special_cases, Hc. Qed.

Lemma plain_safe s :
  plain s = true -> str_forallb (fun c => negb (unsafe_url_byte c)) s = true.
Proof. apply str_forallb_impl. intros c Hc. apply special_cases, Hc. Qed.

Lemma plain_path_safe s :
  plain_path s = true -> str_forallb (fun c => negb (unsafe_url_byte c)) s = true.
Proof. apply str_forallb_impl. intros c Hc. apply path_cases, Hc. Qed.

Lemma plain_path_whole s :
  plain_path s = true -> fst (cut_at "?" (fst (cut_at "#" s))) = s.
Proof.
  intros H. rewrite (cut_at_clean "#" s).
  - cbn [fst]. rewrite (cut_at_clean "?" s); [reflexivity|].
    revert H. apply str_forallb_impl. intros c Hc. apply path_cases, Hc.
  - revert H. apply str_forallb_impl. intros c Hc. apply path_cases, Hc.
Qed.

Lemma str_contains_app c a b :
  str_contains c (a +:+ b) = str_contains c a || str_contains c b.
Proof.
  unfold str_contains. rewrite str_forallb_app. apply negb_andb.
Qed.

(** *** The exporter, form by form *)



(** X2. With the authority form [jaeger://<host>:<port>], host and port
    made of ASCII characters and free of URL punctuation, the Jaeger exporter
    is built for that host and for [int(port)], and a port [int] rejects is
    its [ValueError]. *)
Theorem jaeger_authority_form
  (py_int : string -> result Z) (py_open_w : string -> result File)
  (host port : string) :
  is_ascii host = true -> is_ascii port = true ->
  plain host = true -> plain port = true ->
  get_trace_exporter py_int py_open_w
    (TraceExporter_init ("jaeger://" +:+ host +:+ ":" +:+ port))
  = (bind (py_int port) (fun n => Returns (JaegerExporter host n true)),
     TraceExporter_init ("jaeger://" +:+ host +:+ ":" +:+ port)).
Proof.
  intros _ _ Hh Hp. unfold get_trace_exporter.
  cbn [exporter_url TraceExporter_init].
  change ("jaeger://" +:+ host +:+ ":" +:+ port)
    with (String "j" "aeger" +:+ String ":" ("//" +:+ (host +:+ String ":" port))).
  rewrite urlparse_scheme; [|reflexivity|reflexivity|].
  2:{ change ("//" +:+ (host +:+ String ":" port))
        with (String "/" (String "/" (host +:+ String ":" port))).
      cbn [str_forallb]. rewrite str_forallb_app, (plain_safe _ Hh).
      cbn [str_forallb]. rewrite (plain_safe _ Hp). reflexivity. }
  change ("//" +:+ (host +:+ String ":" port))
    with (String "/" (String "/" (host +:+ String ":" port))).
  cbv iota.
  rewrite span_until_clean.
  2:{ rewrite str_forallb_app, (plain_no_delimiter _ Hh). cbn [str_forallb].
      rewrite (plain_no_delimiter _ Hp). reflexivity. }
  rewrite !str_contains_app.
  change (String ":" port) with (":" +:+ port). rewrite !str_contains_app.
  rewrite !(plain_no_bracket _ host), !(plain_no_bracket _ port); auto.
  change (lower (String "j" "aeger")) with "jaeger".
  cbn -[str_split String.append]. unfold _get_jaeger_exporter. cbn [netloc].
  change (":" +:+ port) with (String ":" port).
  rewrite (str_split_hit ":" host port (plain_no_colon _ Hh)).
  rewrite (str_split_clean ":" port (plain_no_colon _ Hp)).
  reflexivity.
Qed.

Lemma jaeger_authority_form_witness :
  get_trace_exporter sample_int sample_open_w
    (TraceExporter_init "jaeger://jaeger-host:8631")
  = (Returns (JaegerExporter "jaeger-host" 8631 true),
     TraceExporter_init "jaeger://jaeger-host:8631").
Proof.
  apply (jaeger_authority_form sample_int sample_open_w "jaeger-host" "8631");
    reflexivity.
Defined.



(** X4. With [file:<path>], the path free of [?], [#] and line breaks and
    not starting with two slashes, the exporter writes to the file opened at
    exactly that path and keeps the handle; when [open] fails its error goes
    to the caller and no handle is kept. *)
Theorem file_form_opens_path
  (py_int : string -> result Z) (py_open_w : string -> result File)
  (file_path : string) :
  plain_path file_path = true ->
  String.prefix "//" file_path = false ->
  get_trace_exporter py_int py_open_w (TraceExporter_init ("file:" +:+ file_path))
  = match py_open_w file_path with
    | Returns f =>
        (Returns (ConsoleSpanExporter f),
         {| exporter_url := "file:" +:+ file_path; _file := Some f |})
    | Raises e => (Raises e, TraceExporter_init ("file:" +:+ file_path))
    end.
Proof.
  intros Hp Hn. unfold get_trace_exporter. cbn [exporter_url TraceExporter_init].
  change ("file:" +:+ file_path) with (String "f" "ile" +:+ String ":" file_path).
  rewrite urlparse_scheme; [|reflexivity|reflexivity|exact (plain_path_safe _ Hp)].
  rewrite (no_authority _ Hn).
  change (str_contains "[" "") with false. change (str_contains "]" "") with false.
  cbn [xorb]. cbv iota. rewrite (plain_path_whole _ Hp).
  change (lower (String "f" "ile")) with "file".
  cbn [scheme]. change (String.eqb "file" "jaeger") with false.
  change (String.eqb "file" "file") with true. cbv iota.
  unfold _get_file_exporter. cbn [path exporter_url].
  destruct (py_open_w file_path); reflexivity.
Qed.

Lemma file_form_opens_path_witness :
  get_trace_exporter sample_int sample_open_w (TraceExporter_init "file:/tmp/trace.json")
  = (Returns (ConsoleSpanExporter {| file_name := "/tmp/trace.json" |}),
     {| exporter_url := "file:/tmp/trace.json";
        _file := Some {| file_name := "/tmp/trace.json" |} |}).
Proof.
  apply (file_form_opens_path sample_int sample_open_w "/tmp/trace.json");
    reflexivity.
Defined.

(** X5. With [file://<segment>/<rest>], the segment made of ASCII
    characters and free of URL punctuation, the first segment is read as a
    network location and dropped: the file opened is [/<rest>], not
    [<segment>/<rest>]. *)
Theorem file_authority_form_drops_segment
  (py_int : string -> result Z) (py_open_w : string -> result File)
  (segment rest : string) :
  is_ascii segment = true ->
  plain segment = true -> plain_path rest = true ->
  get_trace_exporter py_int py_open_w
    (TraceExporter_init ("file://" +:+ segment +:+ "/" +:+ rest))
  = match py_open_w ("/" +:+ rest) with
    | Returns f =>
        (Returns (ConsoleSpanExporter f),
         {| exporter_url := "file://" +:+ segment +:+ "/" +:+ rest;
            _file := Some f |})
    | Raises e =>
        (Raises e, TraceExporter_init ("file://" +:+ segment +:+ "/" +:+ rest))
    end.
Proof.
  intros _ Hs Hr. unfold get_trace_exporter.
  cbn [exporter_url TraceExporter_init].
  change ("file://" +:+ segment +:+ "/" +:+ rest)
    with (String "f" "ile" +:+ String ":" ("//" +:+ (segment +:+ String "/" rest))).
  rewrite urlparse_scheme; [|reflexivity|reflexivity|].
  2:{ change ("//" +:+ (segment +:+ String "/" rest))
        with (String "/" (String "/" (segment +:+ String "/" rest))).
      cbn [str_forallb]. rewrite str_forallb_app, (plain_safe _ Hs).
      cbn [str_forallb]. rewrite (plain_path_safe _ Hr). reflexivity. }
  change ("//" +:+ (segment +:+ String "/" rest))
    with (String "/" (String "/" (segment +:+ String "/" rest))).
  cbv iota.
  rewrite (span_until_hit _ segment "/" rest (plain_no_delimiter _ Hs) eq_refl).
  rewrite !(plain_no_bracket _ segment); auto.
  cbn [xorb]. cbv iota.
  assert (plain_path (String "/" rest) = true) as Hr'
    by (unfold plain_path; cbn [str_forallb]; exact Hr).
  rewrite (plain_path_whole _ Hr').
  change (lower (String "f" "ile")) with "file".
  cbn [scheme]. change (String.eqb "file" "jaeger") with false.
  change (String.eqb "file" "file") with true. cbv iota.
  unfold _get_file_exporter. cbn [path exporter_url].
  change ("/" +:+ rest) with (String "/" rest).
  destruct (py_open_w (String "/" rest)); reflexivity.
Qed.

Lemma file_authority_form_drops_segment_witness :
  get_trace_exporter sample_int sample_open_w
    (TraceExporter_init "file://tmp/trace.json")
  = (Returns (ConsoleSpanExporter {| file_name := "/trace.json" |}),
     {| exporter_url := "file://tmp/trace.json";
        _file := Some {| file_name := "/trace.json" |} |}).
Proof.
  apply (file_authority_form_drops_segment sample_int sample_open_w
           "tmp" "trace.json"); reflexivity.
Defined.

(** *** The mixin *)

(** X6. Once an agent has been built from settings that name a collector,
    [force_flush_file_exporter] returns: the span processor it needs was
    put in place by [__init__]. *)
Theorem force_flush_returns_when_configured
  (py_int : string -> result Z) (py_open_w : string -> result File)
  (definition : AgentDefinition) (settings : AgentSettings)
  (self : OpenTelemetryMixin) :
  url_configured settings ->
  __init__ py_int py_open_w definition settings = Returns self ->
  force_flush_file_exporter self = Returns tt.
Proof.
  intros Hc Hinit.
  destruct (TelemetrySpec.init_with_url _ _ _ _ _ Hc Hinit) as (_ & _ & [sp Hsp] & _).
  unfold force_flush_file_exporter. rewrite Hsp. reflexivity.
Qed.

Lemma force_flush_returns_when_configured_witness :
  force_flush_file_exporter sample_traced_agent = Returns tt.
Proof.
  apply (force_flush_returns_when_configured sample_int sample_open_w
           sample_definition (settings_with (Some "file:/tmp/trace.json"))).
  - exists "file:/tmp/trace.json". split; [reflexivity|discriminate].
  - reflexivity.
Defined.

(** X7. With a collector URL, [emit] starts a span [emit_message] and
    publishes while that span is current.  When the publish returns, the span
    gets [agent.name] and [message.selector] and is closed; when it raises,
    the span is closed with the error recorded and without the attributes,
    and the error goes to the caller. *)
Theorem traced_emit
  (py_int : string -> result Z) (py_open_w : string -> result File)
  (super_emit : string -> list (string * string) -> result unit)
  (definition : AgentDefinition) (settings : AgentSettings)
  (self : OpenTelemetryMixin) (selector : string)
  (data : list (string * string)) (w : World) :
  url_configured settings ->
  __init__ py_int py_open_w definition settings = Returns self ->
  emit super_emit self selector data w
  = match super_emit selector data with
    | Returns _ =>
        (Returns tt,
         after_call w (EmitCall selector data (Some "emit_message"))
           [ {| span_name := "emit_message";
                span_attributes := [("agent.name", agent_name definition);
                                    ("message.selector", selector)];
                span_exceptions := []; span_status_error := false |} ])
    | Raises e =>
        (Raises e,
         after_call w (EmitCall selector data (Some "emit_message"))
           [ {| span_name := "emit_message"; span_attributes := [];
                span_exceptions := [e]; span_status_error := true |} ])
    end.
Proof.
  intros (u & Hu & Hne). unfold __init__. rewrite Hu.
  destruct (String.eqb_spec u "") as [E|_]; [contradiction|]. cbn [negb].
  destruct (get_trace_exporter _ _ _) as [[se|e] ex]; [|discriminate].
  intros [= <-].
  unfold emit, start_as_current_span, bindx, call_super_emit, after_call.
  cbn. destruct (super_emit selector data) as [[]|e]; reflexivity.
Qed.

Lemma traced_emit_witness :
  emit (fun _ _ => Raises (GraphQLError "not listed")) sample_traced_agent
       "v3.report.vulnerability" [("title", "xss")] empty_world
  = (Raises (GraphQLError "not listed"),
     {| current_spans := [];
        ended_spans := [ {| span_name := "emit_message"; span_attributes := [];
                            span_exceptions := [GraphQLError "not listed"];
                            span_status_error := true |} ];
        calls := [EmitCall "v3.report.vulnerability" [("title", "xss")]
                           (Some "emit_message")] |}).
Proof.
  apply (traced_emit sample_int sample_open_w
           (fun _ _ => Raises (GraphQLError "not listed")) sample_definition
           (settings_with (Some "file:/tmp/trace.json")) sample_traced_agent
           "v3.report.vulnerability" [("title", "xss")] empty_world).
  - exists "file:/tmp/trace.json". split; [reflexivity|discriminate].
  - reflexivity.
Defined.

(** The mixin of module [Telemetry] is the one over wrapped methods that
    only log their call. *)
Lemma over_logging_methods super_process_message super_emit self :
  (forall selector message,
     process_message super_process_message self selector message
     = TelemetryNested.process_message_over
         (call_super_process_message super_process_message) self selector message)
  /\ (forall selector data,
        emit super_emit self selector data
        = TelemetryNested.emit_over (call_super_emit super_emit) self selector data).
Proof. split; reflexivity. Qed.




End TelemetryMore.

(** ** More on the resolvers and mutations *)

Module OxoMore.
Import Py Oxo OxoData OxoForms.

(** *** Agent keys *)

Lemma str_split_cut s :
  Telemetry.str_split ":" s
  = fst (Telemetry.cut_at ":" s)
    :: (if Telemetry.str_contains ":" s
        then Telemetry.str_split ":" (snd (Telemetry.cut_at ":" s))
        else []).
Proof.
  unfold Telemetry.cut_at, Telemetry.str_contains.
  induction s as [|c s IH]; [reflexivity|].
  cbn [Telemetry.str_split Telemetry.span_until Telemetry.str_forallb].
  rewrite (Ascii.eqb_sym c ":").
  destruct (Ascii.eqb ":" c) eqn:E; cbn [negb andb fst snd]; [reflexivity|].
  rewrite IH.
  destruct (Telemetry.span_until (Ascii.eqb ":") s) as [pre rest].
  cbn [fst snd].
  destruct (Telemetry.str_forallb (fun d => negb (Ascii.eqb ":" d)) s);
    cbn [negb]; destruct rest; reflexivity.
Qed.

Lemma build_agent_settings_parts d agent :
  build_agent_settings d agent
  = Returns {| key := key_part (agent_key agent);
               version := version_part (agent_key agent);
               args := map build_arg
                         (filter (fun a => argument_agent_id a = agent_id agent)
                                 (agent_arguments d)) |}.
Proof.
  unfold build_agent_settings, key_part, version_part.
  rewrite str_split_cut. cbn [Telemetry.index lookup list_lookup bind].
  destruct (Telemetry.str_contains ":" (agent_key agent)); [|reflexivity].
  rewrite str_split_cut. reflexivity.
Qed.

Lemma mapM_build d ags :
  mapM (build_agent_settings d) ags
  = Returns (map (fun agent =>
                    {| key := key_part (agent_key agent);
                       version := version_part (agent_key agent);
                       args := map build_arg
                                 (filter (fun a => argument_agent_id a = agent_id agent)
                                         (agent_arguments d)) |}) ags).
Proof.
  induction ags as [|a ags IH]; [reflexivity|].
  cbn [mapM map]. rewrite build_agent_settings_parts, IH. reflexivity.
Qed.

(** X9. [_prepare_agent_group] returns for every stored group, whatever its
    agent keys look like: the definition has the group's name and
    description and one entry per agent, in order, whose key is the stored
    key up to its first colon and whose version is the text between the first
    and the second colon, or [None] when the stored key has no colon. *)
Theorem prepare_agent_group_total (agent_group_id : Z) (w : World) (g : AgentGroup) :
  agent_groups (db w) !! agent_group_id = Some g ->
  exists definition,
    _prepare_agent_group agent_group_id w = (Returns definition, w)
    /\ name definition = group_name g
    /\ description definition = group_description g
    /\ map key (agents definition) = map (fun a => key_part (agent_key a)) (group_agents g)
    /\ map version (agents definition)
       = map (fun a => version_part (agent_key a)) (group_agents g).
Proof.
  intros Hg. unfold _prepare_agent_group. rewrite Hg, mapM_build. cbn [bind].
  eexists. split; [reflexivity|]. cbn [name description agents].
  rewrite !map_map. repeat split; reflexivity.
Qed.

Lemma prepare_agent_group_total_witness :
  exists definition,
    _prepare_agent_group 1 (world_of keyed_db) = (Returns definition, world_of keyed_db)
    /\ map key (agents definition) = ["agent/a"; "agent/b"]
    /\ map version (agents definition) = [Some "1.0"; None].
Proof.
  destruct (prepare_agent_group_total 1 (world_of keyed_db)
              {| group_name := "g"; group_description := "";
                 group_agents :=
                   [ {| agent_id := 1; agent_key := "agent/a:1.0:rc" |};
                     {| agent_id := 2; agent_key := "agent/b" |} ] |})
    as (definition & H & _ & _ & Hk & Hv); [reflexivity|].
  exists definition. split; [exact H|]. split; [exact Hk|exact Hv].
Defined.

(** *** Selecting assets *)

Lemma filter_agree {A} (P Q : A -> Prop) `{!forall x, Decision (P x)}
      `{!forall x, Decision (Q x)} (l : list A) :
  (forall x, In x l -> (P x <-> Q x)) -> filter P l = filter Q l.
Proof.
  induction l as [|x l IH]; intros Hl; [reflexivity|].
  rewrite !filter_cons.
  assert (P x <-> Q x) as Hx by (apply Hl; now left).
  rewrite IH by (intros y Hy; apply Hl; now right).
  destruct (decide (P x)), (decide (Q x)); tauto.
Qed.

Section RunScanMore.
Variable runtime_install : result unit.
Variable runtime_can_run : AgentGroupDefinition -> result pyval.
Variable runtime_scan :
  string -> AgentGroupDefinition -> list ScanAsset -> exec Database Scan.
Variable install_agent_install : string -> option string -> result unit.
Variable is_apk is_xapk is_aab : list Byte.byte -> bool.
Variable ip_network : string -> result IPNetwork.
Variable json_loads_list : string -> result (list string).
Variable json_loads_link : string -> result (option string * option string).

Local Abbreviation prepare_assets :=
  (_prepare_assets is_apk is_xapk is_aab ip_network json_loads_list json_loads_link).
Local Abbreviation run_scan :=
  (RunScanMutation_mutate runtime_install runtime_can_run runtime_scan
     install_agent_install is_apk is_xapk is_aab ip_network json_loads_list
     json_loads_link).
Local Abbreviation install_agents :=
  (_install_agents runtime_install install_agent_install).

(** X10. [_prepare_assets] looks only at which stored rows the ids select:
    repeating an id, changing the order of the ids or adding ids that no
    row has changes neither the result nor its order. *)
Theorem prepare_assets_by_selection (ids1 ids2 : list Z) (w : World) :
  (forall a, In a (assets (db w)) -> (asset_id a ∈ ids1 <-> asset_id a ∈ ids2)) ->
  prepare_assets ids1 w = prepare_assets ids2 w.
Proof.
  intros H. unfold _prepare_assets.
  rewrite (filter_agree (fun a => asset_id a ∈ ids1) (fun a => asset_id a ∈ ids2)
             (assets (db w)) H).
  reflexivity.
Qed.

(** X11. A run-scan request is turned down before anything is started: with
    an agent group id that is not stored the error is [Agent group not
    found.], and with a stored group but no stored asset among the asset ids
    it is [Assets not found.]; in both cases the world is as before, so
    neither the runtime nor the installer was reached. *)
Theorem run_scan_rejects_missing_inputs (scan : OxoAgentScanInputType) (w : World) :
  (agent_groups (db w) !! input_agent_group_id scan = None ->
   run_scan scan w = (Raises (GraphQLError "Agent group not found."), w))
  /\ (is_Some (agent_groups (db w) !! input_agent_group_id scan) ->
      (forall a, In a (assets (db w)) -> asset_id a ∉ input_asset_ids scan) ->
      run_scan scan w = (Raises (GraphQLError "Assets not found."), w)).
Proof.
  split.
  - intros Hg. unfold RunScanMutation_mutate, bindx, _prepare_agent_group.
    rewrite Hg. reflexivity.
  - intros [g Hg] Hnone.
    destruct (prepare_agent_group_total _ _ _ Hg) as (definition & Hd & _).
    unfold RunScanMutation_mutate, bindx. rewrite Hd.
    unfold _prepare_assets.
    rewrite (filter_agree (fun a => asset_id a ∈ input_asset_ids scan)
               (fun _ => False) (assets (db w))).
    + assert (forall l : list Asset, filter (fun _ => False) l = []) as Hnil.
      { induction l as [|x l IH]; [reflexivity|].
        rewrite filter_cons. destruct (decide False); [tauto|exact IH]. }
      rewrite Hnil. reflexivity.
    + intros a Ha. split; [apply Hnone, Ha|tauto].
Qed.

(** *** Installing *)

Lemma install_agents_loop_app pre rest : forall w,
  forallb (fun ag => not_found_or_ok (install_agent_install (key ag) (version ag)))
          pre = true ->
  install_agents_loop install_agent_install (pre ++ rest) w
  = install_agents_loop install_agent_install rest (logged w (install_calls pre)).
Proof.
  induction pre as [|ag pre IH]; intros w H.
  - cbn [app install_calls map]. unfold logged. rewrite app_nil_r.
    destruct w; reflexivity.
  - cbn [forallb] in H. apply andb_true_iff in H as [Hag Hpre].
    cbn [app install_agents_loop]. unfold bindx, try_except, call_install_agent.
    assert (install_agents_loop install_agent_install (pre ++ rest)
              (log_call (InstallAgentCall (key ag) (version ag)) w)
            = install_agents_loop install_agent_install rest
                (logged w (install_calls (ag :: pre)))) as Hgo.
    { rewrite IH by exact Hpre. unfold logged, log_call. cbn.
      rewrite <- app_assoc. reflexivity. }
    destruct (install_agent_install (key ag) (version ag)) as [[]|e]; cbn in Hag.
    + exact Hgo.
    + rewrite Hag. unfold ret. exact Hgo.
Qed.

(** X12. With the backend reachable and every agent either installed or
    reported missing from the store, [_install_agents] returns [None] after
    one install call per agent, in the order of the group. *)
Theorem install_agents_goes_through (agent_group : AgentGroupDefinition) (w : World) :
  runtime_install = Returns tt ->
  forallb (fun ag => not_found_or_ok (install_agent_install (key ag) (version ag)))
          (agents agent_group) = true ->
  install_agents agent_group w
  = (Returns tt, logged w (InstallCall :: install_calls (agents agent_group))).
Proof.
  intros Hr Hall. unfold _install_agents, try_except, bindx, call_runtime_install.
  rewrite Hr.
  rewrite <- (app_nil_r (agents agent_group)) at 1.
  rewrite install_agents_loop_app by exact Hall.
  cbn [install_agents_loop]. unfold ret, logged, log_call. cbn.
  rewrite <- app_assoc. reflexivity.
Qed.

(** X13. The first agent whose install raises anything but
    [AgentDetailsNotFound] ends the loop: the agents after it are not
    attempted, and the caller gets [Could not install the agents: ...] for an
    [HTTPError] and the error itself otherwise. *)
Theorem install_agents_stops_at_error
  (group_name group_description : string)
  (pre post : list AgentSettings) (ag : AgentSettings) (e : exn) (w : World) :
  runtime_install = Returns tt ->
  forallb (fun ag => not_found_or_ok (install_agent_install (key ag) (version ag)))
          pre = true ->
  install_agent_install (key ag) (version ag) = Raises e ->
  is_AgentDetailsNotFound e = false ->
  install_agents {| name := group_name; description := group_description;
                    agents := pre ++ ag :: post |} w
  = (Raises (if is_HTTPError e
             then GraphQLError ("Could not install the agents: " +:+ str_exn e)
             else e),
     logged w (InstallCall :: install_calls pre
                 ++ [InstallAgentCall (key ag) (version ag)])).
Proof.
  intros Hr Hpre He Hnf.
  unfold _install_agents, try_except, bindx, call_runtime_install.
  rewrite Hr. cbn [agents].
  rewrite install_agents_loop_app by exact Hpre.
  cbn [install_agents_loop]. unfold bindx, try_except, call_install_agent.
  rewrite He, Hnf. unfold logged, log_call, raise. cbn.
  rewrite <- !app_assoc. cbn [app].
  destruct (is_HTTPError e); reflexivity.
Qed.

(** *** Running *)

Lemma prepared scan w agent_group scan_assets :
  fst (_prepare_agent_group (input_agent_group_id scan) w) = Returns agent_group ->
  fst (prepare_assets (input_asset_ids scan) w) = Returns scan_assets ->
  _prepare_agent_group (input_agent_group_id scan) w = (Returns agent_group, w)
  /\ prepare_assets (input_asset_ids scan) w = (Returns scan_assets, w).
Proof.
  intros Hg Ha. split.
  - pose proof (OxoSpec.prepare_agent_group_reads (input_agent_group_id scan) w) as Hw.
    destruct (_prepare_agent_group (input_agent_group_id scan) w) as [r w'].
    cbn in Hg, Hw. subst. reflexivity.
  - pose proof (OxoSpec.prepare_assets_reads is_apk is_xapk is_aab ip_network
                  json_loads_list json_loads_link (input_asset_ids scan) w) as Hw.
    destruct (prepare_assets (input_asset_ids scan) w) as [r w'].
    cbn in Ha, Hw. subst. reflexivity.
Qed.

(** X14. An error of [can_run] ends the request before anything is
    installed or started: an [OstorlabError] (or a subclass) comes back as the
    GraphQL error [Runtime encountered an error to run scan: ...], any other
    error as it is, and the world is as before. *)
Theorem run_scan_can_run_error
  (scan : OxoAgentScanInputType) (w : World)
  (agent_group : AgentGroupDefinition) (scan_assets : list ScanAsset) (e : exn) :
  fst (_prepare_agent_group (input_agent_group_id scan) w) = Returns agent_group ->
  fst (prepare_assets (input_asset_ids scan) w) = Returns scan_assets ->
  runtime_can_run agent_group = Raises e ->
  run_scan scan w = (Raises (translated e), w).
Proof.
  intros Hg Ha He. destruct (prepared _ _ _ _ Hg Ha) as [Hg' Ha'].
  unfold RunScanMutation_mutate, bindx. rewrite Hg', Ha'.
  unfold try_except, reraise_as_runtime_error, raise, translated. rewrite He.
  destruct (is_OstorlabError e); reflexivity.
Qed.

(** X15. When [can_run] returns [True], the agents install and the runtime
    creates the scan, [mutate] returns the created scan with the requested
    agent group set on it; the runtime was called in the order install, one
    call per agent, scan; the scan table is the one the runtime left, the
    agent group being set on the returned object only; and every stored
    asset among the requested ids now belongs to the scan, the asset table
    having the same rows as the runtime left. *)
Theorem run_scan_success
  (scan : OxoAgentScanInputType) (w : World)
  (agent_group : AgentGroupDefinition) (scan_assets : list ScanAsset)
  (created : Scan) (d' : Database) :
  fst (_prepare_agent_group (input_agent_group_id scan) w) = Returns agent_group ->
  fst (prepare_assets (input_asset_ids scan) w) = Returns scan_assets ->
  runtime_can_run agent_group = Returns PyTrue ->
  runtime_install = Returns tt ->
  forallb (fun ag => not_found_or_ok (install_agent_install (key ag) (version ag)))
          (agents agent_group) = true ->
  runtime_scan (input_title scan) agent_group scan_assets (db w)
  = (Returns created, d') ->
  let attached :=
    {| scan_id := scan_id created; scan_title := scan_title created;
       scan_agent_group_id := Some (input_agent_group_id scan) |} in
  exists w',
    run_scan scan w = (Returns (Some attached), w')
    /\ runtime_log w'
       = runtime_log w ++ InstallCall :: install_calls (agents agent_group)
                       ++ [ScanCall (input_title scan)]
    /\ scans (db w') = scans d'
    /\ agent_groups (db w') = agent_groups d'
    /\ map asset_id (assets (db w')) = map asset_id (assets d')
    /\ (forall a, In a (assets (db w')) ->
                  asset_id a ∈ input_asset_ids scan ->
                  asset_scan_id a = Some (scan_id created))
    /\ (forall a, In a (assets d') ->
                  asset_id a ∉ input_asset_ids scan ->
                  In a (assets (db w'))).
Proof.
  intros Hg Ha Hc Hr Hall Hs attached.
  destruct (prepared _ _ _ _ Hg Ha) as [Hg' Ha'].
  unfold RunScanMutation_mutate, bindx. rewrite Hg', Ha'.
  unfold try_except at 1. rewrite Hc. cbn [is_True].
  rewrite (install_agents_goes_through agent_group w Hr Hall).
  unfold try_except, bindx, call_runtime_scan. cbn [db logged log_call].
  rewrite Hs. cbn [attach_scan with_db db ret].
  eexists. split; [reflexivity|]. unfold with_db, log_call, logged. cbn.
  split; [|split; [|split; [|split; [|split]]]].
  - rewrite <- app_assoc. reflexivity.
  - reflexivity.
  - reflexivity.
  - rewrite map_map. apply map_ext. intros a. case_bool_decide; reflexivity.
  - intros a Hin Hid. apply in_map_iff in Hin as (a0 & <- & _).
    case_bool_decide as Hdec; [reflexivity|].
    exfalso. apply Hdec. exact Hid.
  - intros a Hin Hid. apply in_map_iff. exists a. split; [|exact Hin].
    case_bool_decide as Hdec; [contradiction|reflexivity].
Qed.

(** X16. When the runtime fails to create the scan after the agents were
    installed, the error comes back ([OstorlabError] as the GraphQL error,
    anything else as it is) and nothing is undone: the install calls stay
    made and the database is the one the runtime left. *)
Theorem run_scan_scan_error
  (scan : OxoAgentScanInputType) (w : World)
  (agent_group : AgentGroupDefinition) (scan_assets : list ScanAsset)
  (e : exn) (d' : Database) :
  fst (_prepare_agent_group (input_agent_group_id scan) w) = Returns agent_group ->
  fst (prepare_assets (input_asset_ids scan) w) = Returns scan_assets ->
  runtime_can_run agent_group = Returns PyTrue ->
  runtime_install = Returns tt ->
  forallb (fun ag => not_found_or_ok (install_agent_install (key ag) (version ag)))
          (agents agent_group) = true ->
  runtime_scan (input_title scan) agent_group scan_assets (db w) = (Raises e, d') ->
  run_scan scan w
  = (Raises (translated e),
     {| db := d'; files := files w; uuids_drawn := uuids_drawn w;
        runtime_log := runtime_log w ++ InstallCall :: install_calls (agents agent_group)
                                     ++ [ScanCall (input_title scan)] |}).
Proof.
  intros Hg Ha Hc Hr Hall Hs.
  destruct (prepared _ _ _ _ Hg Ha) as [Hg' Ha'].
  unfold RunScanMutation_mutate, bindx. rewrite Hg', Ha'.
  unfold try_except at 1. rewrite Hc. cbn [is_True].
  rewrite (install_agents_goes_through agent_group w Hr Hall).
  unfold try_except, bindx, call_runtime_scan. cbn [db logged log_call].
  rewrite Hs. unfold translated, reraise_as_runtime_error, raise, with_db,
    log_call, logged.
  cbn. rewrite <- app_assoc.
  destruct (is_OstorlabError e); reflexivity.
Qed.

(** *** Deleting an agent group *)

(** X17. Deleting a stored agent group returns [True] and removes that group
    and no other, leaving scans and assets alone; afterwards the same delete
    raises [AgentGroup not found.] and a run-scan request for the group is
    turned down with [Agent group not found.] before the runtime is
    reached. *)
Theorem delete_agent_group_removes (agent_group_id : Z) (w : World) :
  is_Some (agent_groups (db w) !! agent_group_id) ->
  exists w',
    DeleteAgentGroupMutation_mutate agent_group_id w = (Returns true, w')
    /\ agent_groups (db w') !! agent_group_id = None
    /\ (forall j, j <> agent_group_id ->
                  agent_groups (db w') !! j = agent_groups (db w) !! j)
    /\ scans (db w') = scans (db w) /\ assets (db w') = assets (db w)
    /\ runtime_log w' = runtime_log w
    /\ DeleteAgentGroupMutation_mutate agent_group_id w'
       = (Raises (GraphQLError "AgentGroup not found."), w')
    /\ (forall scan,
          input_agent_group_id scan = agent_group_id ->
          run_scan scan w' = (Raises (GraphQLError "Agent group not found."), w')).
Proof.
  intros [g Hg]. unfold DeleteAgentGroupMutation_mutate at 1. rewrite Hg.
  eexists. split; [reflexivity|]. unfold with_db. cbn.
  assert (delete agent_group_id (agent_groups (db w)) !! agent_group_id = None)
    as Hgone by apply lookup_delete_eq.
  split; [exact Hgone|]. split.
  { intros j Hj. apply lookup_delete_ne. congruence. }
  repeat (split; [reflexivity|]). split.
  - unfold DeleteAgentGroupMutation_mutate. cbn. rewrite Hgone. reflexivity.
  - intros scan <-.
    unfold RunScanMutation_mutate, bindx, _prepare_agent_group. cbn.
    rewrite Hgone. reflexivity.
Qed.

End RunScanMore.

Lemma prepare_assets_by_selection_witness :
  _prepare_assets never_apk never_apk never_apk no_ip no_json_list no_json_link
    [99; 1; 1] (world_of sample_db)
  = _prepare_assets never_apk never_apk never_apk no_ip no_json_list no_json_link
      [1] (world_of sample_db).
Proof.
  apply prepare_assets_by_selection. intros a [<-|[]]. cbn.
  split; intros _; [apply list_elem_of_here|].
  apply list_elem_of_further, list_elem_of_here.
Defined.

Lemma run_scan_rejects_missing_inputs_witness :
  RunScanMutation_mutate (Returns tt) can_run scan_creates store_complete
    never_apk never_apk never_apk no_ip no_json_list no_json_link
    {| input_title := "t"; input_asset_ids := [5]; input_agent_group_id := 1 |}
    (world_of sample_db)
  = (Raises (GraphQLError "Assets not found."), world_of sample_db).
Proof.
  apply (run_scan_rejects_missing_inputs (Returns tt) can_run scan_creates
           store_complete never_apk never_apk never_apk no_ip no_json_list
           no_json_link).
  - eexists. reflexivity.
  - intros a [<-|[]] Hin. cbn in Hin. apply list_elem_of_singleton in Hin.
    discriminate Hin.
Defined.

Lemma install_agents_goes_through_witness :
  _install_agents (Returns tt) store_lacking two_agents (world_of sample_db)
  = (Returns tt,
     logged (world_of sample_db)
       [ InstallCall; InstallAgentCall "agent/missing" None;
         InstallAgentCall "agent/ostorlab/nmap" (Some "1.0") ]).
Proof.
  apply (install_agents_goes_through (Returns tt) store_lacking two_agents
           (world_of sample_db)); reflexivity.
Defined.

Lemma install_agents_stops_at_error_witness :
  _install_agents (Returns tt) store_timing_out
    {| name := "three"; description := "";
       agents := [ {| key := "agent/missing"; version := None; args := [] |};
                   {| key := "agent/ostorlab/nmap"; version := Some "1.0"; args := [] |};
                   {| key := "agent/ostorlab/tsunami"; version := None; args := [] |} ] |}
    (world_of sample_db)
  = (Raises (GraphQLError "Could not install the agents: timed out"),
     logged (world_of sample_db)
       [ InstallCall; InstallAgentCall "agent/missing" None;
         InstallAgentCall "agent/ostorlab/nmap" (Some "1.0") ]).
Proof.
  apply (install_agents_stops_at_error (Returns tt) store_timing_out "three" ""
           [ {| key := "agent/missing"; version := None; args := [] |} ]
           [ {| key := "agent/ostorlab/tsunami"; version := None; args := [] |} ]
           {| key := "agent/ostorlab/nmap"; version := Some "1.0"; args := [] |}
           (HTTPError "timed out") (world_of sample_db)); reflexivity.
Defined.

Lemma run_scan_can_run_error_witness :
  RunScanMutation_mutate (Returns tt) can_run_raises scan_creates store_complete
    never_apk never_apk never_apk no_ip no_json_list no_json_link
    sample_scan_input (world_of sample_db)
  = (Raises (GraphQLError
       "Runtime encountered an error to run scan: docker is not running"),
     world_of sample_db).
Proof.
  apply (run_scan_can_run_error (Returns tt) can_run_raises scan_creates
           store_complete never_apk never_apk never_apk no_ip no_json_list
           no_json_link sample_scan_input (world_of sample_db)
           nmap_definition [AndroidStore "a.b.c"]
           (OstorlabError "docker is not running")); reflexivity.
Defined.

Lemma run_scan_success_witness :
  exists w',
    RunScanMutation_mutate (Returns tt) can_run scan_creates store_complete
      never_apk never_apk never_apk no_ip no_json_list no_json_link
      sample_scan_input (world_of sample_db)
    = (Returns (Some {| scan_id := 8; scan_title := "Test Scan";
                        scan_agent_group_id := Some 1 |}), w')
    /\ scans (db w') !! 8
       = Some {| scan_id := 8; scan_title := "Test Scan";
                 scan_agent_group_id := None |}
    /\ map asset_scan_id (assets (db w')) = [Some 8].
Proof.
  destruct (run_scan_success (Returns tt) can_run scan_creates store_complete
              never_apk never_apk never_apk no_ip no_json_list no_json_link
              sample_scan_input (world_of sample_db) nmap_definition
              [AndroidStore "a.b.c"]
              {| scan_id := 8; scan_title := "Test Scan"; scan_agent_group_id := None |}
              (snd (scan_creates "Test Scan" nmap_definition [AndroidStore "a.b.c"]
                      sample_db)))
    as (w' & Hrun & _ & Hscans & _); try reflexivity.
  exists w'. split; [exact Hrun|]. split.
  - rewrite Hscans. reflexivity.
  - injection Hrun as <-. reflexivity.
Defined.

Lemma run_scan_scan_error_witness :
  RunScanMutation_mutate (Returns tt) can_run scan_raises store_complete
    never_apk never_apk never_apk no_ip no_json_list no_json_link
    sample_scan_input (world_of sample_db)
  = (Raises (GraphQLError
       "Runtime encountered an error to run scan: service unhealthy"),
     logged (world_of sample_db)
       [ InstallCall; InstallAgentCall "agent/ostorlab/nmap" (Some "1.0");
         ScanCall "Test Scan" ]).
Proof.
  apply (run_scan_scan_error (Returns tt) can_run scan_raises store_complete
           never_apk never_apk never_apk no_ip no_json_list no_json_link
           sample_scan_input (world_of sample_db) nmap_definition
           [AndroidStore "a.b.c"] (OstorlabError "service unhealthy") sample_db);
    reflexivity.
Defined.

Lemma delete_agent_group_removes_witness :
  exists w',
    DeleteAgentGroupMutation_mutate 1 (world_of sample_db) = (Returns true, w')
    /\ RunScanMutation_mutate (Returns tt) can_run scan_creates store_complete
         never_apk never_apk never_apk no_ip no_json_list no_json_link
         sample_scan_input w'
       = (Raises (GraphQLError "Agent group not found."), w').
Proof.
  destruct (delete_agent_group_removes (Returns tt) can_run scan_creates
              store_complete never_apk never_apk never_apk no_ip no_json_list
              no_json_link 1 (world_of sample_db))
    as (w' & Hdel & _ & _ & _ & _ & _ & _ & Hrun).
  - eexists. reflexivity.
  - exists w'. split; [exact Hdel|]. apply Hrun. reflexivity.
Defined.

(** *** Creating assets *)

Section CreateMore.
Variable create : NewAsset -> Database -> Asset * Database.
Variable uuid4 : nat -> string.
Variable upload_path : string.
Variable str_asset : OxoAssetInputType -> string.

Local Abbreviation validate := (_validate str_asset).
Local Abbreviation loop := (create_assets_loop create uuid4 upload_path str_asset).
Local Abbreviation mutate :=
  (CreateAssetsMutation_mutate create uuid4 upload_path str_asset).

Lemma all_valid_inputs assets :
  (forall a, In a assets -> validate a = None) ->
  valid_inputs_of str_asset assets = assets
  /\ error_messages_of str_asset assets = [].
Proof.
  unfold valid_inputs_of, error_messages_of.
  induction assets as [|a assets IH]; intros H; [split; reflexivity|].
  destruct IH as [IH1 IH2]; [intros b Hb; apply H; now right|].
  assert (validate a = None) as Ha by (apply H; now left).
  rewrite filter_cons. destruct (decide (validate a = None)); [|contradiction].
  cbn [omap list_omap]. rewrite Ha, IH1. split; [reflexivity|exact IH2].
Qed.

(** X18. When every input names exactly one target, [mutate] raises nothing
    and returns one created asset per input. *)
Theorem create_assets_all_valid (assets : list OxoAssetInputType) (w : World) :
  (forall a, In a assets -> validate a = None) ->
  exists created w',
    mutate assets w = (Returns created, w')
    /\ length created = length assets.
Proof.
  intros H. destruct (all_valid_inputs assets H) as [Hv He].
  unfold CreateAssetsMutation_mutate.
  rewrite (OxoSpec.loop_skips_invalid create uuid4 upload_path str_asset assets).
  rewrite He, Hv. cbn.
  eexists. eexists. split; [reflexivity|].
  pose proof (OxoSpec.loop_valid_length create uuid4 upload_path str_asset
                assets [] w) as Hlen.
  rewrite Hv in Hlen. exact Hlen.
Qed.

Lemma create_targets_no_file a created w :
  validate a = None -> has_file_target a = false ->
  files (snd (create_targets create uuid4 upload_path a created w)) = files w
  /\ uuids_drawn (snd (create_targets create uuid4 upload_path a created w))
     = uuids_drawn w.
Proof.
  destruct a as [[s|] [f|] [s'|] [f'|] [l|] [i|]]; intros Hv Hf;
    try discriminate Hv; try discriminate Hf; clear Hv Hf;
    unfold create_targets, do_create; cbn;
    repeat match goal with
           | |- context [create ?n ?d] => destruct (create n d)
           end;
    cbn; split; reflexivity.
Qed.

Lemma loop_no_file assets : forall created errors w,
  (forall a, In a assets -> validate a = None -> has_file_target a = false) ->
  files (snd (loop assets created errors w)) = files w
  /\ uuids_drawn (snd (loop assets created errors w)) = uuids_drawn w.
Proof.
  induction assets as [|a assets IH]; intros created errors w H.
  - split; reflexivity.
  - cbn [create_assets_loop].
    destruct (validate a) as [m|] eqn:E.
    + apply IH. intros b Hb. apply H. now right.
    + pose proof (create_targets_no_file a created w E
                    (H a (or_introl eq_refl) E)) as [Hf Hu].
      destruct (create_targets create uuid4 upload_path a created w) as [created' w'].
      cbn [snd] in Hf, Hu.
      destruct (IH created' errors w') as [Hf' Hu'];
        [intros b Hb; apply H; now right|].
      rewrite Hf', Hu'. split; assumption.
Qed.

(** X19. No upload is written unless a valid input carries a file: if none
    of the valid inputs has an [android_file] or [ios_file] target, the
    stored files and the count of drawn uuids are as before, whatever file
    content the invalid inputs carry and whether or not [mutate] raises. *)
Theorem create_assets_writes_no_file (assets : list OxoAssetInputType) (w : World) :
  (forall a, In a assets -> validate a = None -> has_file_target a = false) ->
  files (snd (mutate assets w)) = files w
  /\ uuids_drawn (snd (mutate assets w)) = uuids_drawn w.
Proof.
  intros H. pose proof (loop_no_file assets [] [] w H) as Hl.
  unfold CreateAssetsMutation_mutate.
  destruct (loop assets [] [] w) as [[created errors] w'].
  cbn [snd] in Hl. destruct (Nat.ltb 0 (length errors)); exact Hl.
Qed.

End CreateMore.

Lemma create_assets_all_valid_witness :
  exists created w',
    CreateAssetsMutation_mutate append_create (fun _ => "u") "/uploads"
      sample_str_asset [store_input; store_input] (world_of empty_db)
    = (Returns created, w')
    /\ length created = 2%nat.
Proof.
  apply (create_assets_all_valid append_create (fun _ => "u") "/uploads"
           sample_str_asset [store_input; store_input] (world_of empty_db)).
  intros a [<-|[<-|[]]]; reflexivity.
Defined.

Lemma create_assets_writes_no_file_witness :
  files (snd (CreateAssetsMutation_mutate append_create (fun _ => "u") "/uploads"
                sample_str_asset [file_input; store_input] (world_of empty_db)))
  = ∅.
Proof.
  apply (create_assets_writes_no_file append_create (fun _ => "u") "/uploads"
           sample_str_asset [file_input; store_input] (world_of empty_db)).
  intros a [<-|[<-|[]]] Hv; [discriminate Hv|reflexivity].
Defined.

End OxoMore.

(** ** Deleting a scan *)

Module OxoDeleteScanMore.
Import Py OxoDeleteScan.

(** X20. Deleting a scan with an unknown id raises [Scan not found.] and
    changes nothing.  Deleting a stored scan returns [True] and removes the
    scan together with exactly the vulnerabilities and statuses of that scan;
    other scans and their rows stay, and so do all assets, those of the
    deleted scan included.  Deleting it again raises [Scan not found.]. *)
Theorem delete_scan_removes (scan_id : Z) (session : Session) :
  (Oxo.scans (tables session) !! scan_id = None ->
   DeleteScanMutation_mutate scan_id session
   = (Raises (GraphQLError "Scan not found."), session))
  /\ (is_Some (Oxo.scans (tables session) !! scan_id) ->
      exists session',
        DeleteScanMutation_mutate scan_id session = (Returns true, session')
        /\ Oxo.scans (tables session') !! scan_id = None
        /\ (forall j, j <> scan_id ->
                      Oxo.scans (tables session') !! j
                      = Oxo.scans (tables session) !! j)
        /\ (forall v, In v (vulnerabilities session') <->
                      In v (vulnerabilities session)
                      /\ ExportUtils.vuln_scan_id v <> scan_id)
        /\ (forall s, In s (scan_statuses session') <->
                      In s (scan_statuses session) /\ status_scan_id s <> scan_id)
        /\ Oxo.assets (tables session') = Oxo.assets (tables session)
        /\ DeleteScanMutation_mutate scan_id session'
           = (Raises (GraphQLError "Scan not found."), session')).
Proof.
  split.
  - intros H. unfold DeleteScanMutation_mutate. rewrite H. reflexivity.
  - intros [sc Hsc]. unfold DeleteScanMutation_mutate at 1. rewrite Hsc.
    eexists. split; [reflexivity|]. cbn.
    assert (delete scan_id (Oxo.scans (tables session)) !! scan_id = None)
      as Hgone by apply lookup_delete_eq.
    split; [exact Hgone|]. split.
    { intros j Hj. apply lookup_delete_ne. congruence. }
    split.
    { intros v. rewrite <- !list_elem_of_In, list_elem_of_filter. tauto. }
    split.
    { intros s. rewrite <- !list_elem_of_In, list_elem_of_filter. tauto. }
    split; [reflexivity|].
    unfold DeleteScanMutation_mutate. cbn. rewrite Hgone. reflexivity.
Qed.

Lemma delete_scan_removes_witness :
  exists session',
    DeleteScanMutation_mutate 7 sample_session = (Returns true, session')
    /\ map ExportUtils.vuln_id (vulnerabilities session') = [2]
    /\ scan_statuses session' = []
    /\ Oxo.assets (tables session') = [OxoData.store_asset].
Proof.
  destruct (delete_scan_removes 7 sample_session) as [_ H].
  destruct H as (session' & Hdel & _ & _ & _ & _ & Hassets & _).
  - eexists. reflexivity.
  - exists session'. split; [exact Hdel|].
    injection Hdel as <-. repeat split; reflexivity.
Defined.

End OxoDeleteScanMore.

(** ** The exported archive *)

Module ExportArchiveMore.
Import Py ExportArchive.

Section Archive.
Variable distinct : list ExportUtils.Vulnerability -> list ExportUtils.Vulnerability.
Variable json_dumps : json -> string.
Variable path_name : string -> string.
Variable strftime : Z -> string.
Variable ip_network : string -> result Oxo.IPNetwork.
Variable files : gmap string (list Byte.byte).
Variable db : Database.

Local Abbreviation one_asset := (export_one_asset path_name ip_network files db).
Local Abbreviation export_asset := (_export_asset json_dumps path_name ip_network files db).
Local Abbreviation export_scan_json := (_export_scan distinct json_dumps strftime db).
Local Abbreviation export_vulnz := (_export_vulnz json_dumps db).
Local Abbreviation export :=
  (export_scan distinct json_dumps path_name strftime ip_network files db).

(** The assets of a scan, as [_export_asset] selects them. *)
Local Abbreviation scan_assets id :=
  (filter (fun a => asset_scan_id a = Some id) (assets db)).

(** *** What one asset adds to the archive *)




(** A loop over a list with an item that raises wherever it is started
    raises. *)
Lemma for_each_raises {A B} (f : A -> exec Archive B) l x :
  In x l -> (forall archive, exists e, fst (f x archive) = Raises e) ->
  forall archive, exists e, fst (for_each f l archive) = Raises e.
Proof.
  intros Hin Hx. induction l as [|a l IH]; [destruct Hin|].
  intros archive. cbn [for_each]. unfold bindx.
  destruct Hin as [->|Hin].
  - destruct (Hx archive) as [e He].
    destruct (f x archive) as [[y|e'] a1]; cbn in He; [discriminate|].
    exists e'. reflexivity.
  - destruct (f a archive) as [[y|e'] a1]; [|exists e'; reflexivity].
    destruct (IH Hin a1) as [e He].
    destruct (for_each f l a1) as [[ys|e'] a2]; cbn in He; [discriminate|].
    exists e'. reflexivity.
Qed.

Lemma export_asset_raises id x :
  In x (assets db) -> asset_scan_id x = Some id ->
  (forall archive, exists e, fst (one_asset x archive) = Raises e) ->
  forall archive, exists e, fst (export_asset id archive) = Raises e.
Proof.
  intros Hin Hid Hx archive. unfold _export_asset.
  assert (In x (scan_assets id)) as Hsel.
  { apply list_elem_of_In, list_elem_of_filter. split; [exact Hid|].
    now apply list_elem_of_In. }
  destruct (scan_assets id) as [|a l] eqn:E; [destruct Hsel|].
  cbn [length Nat.eqb]. unfold bindx.
  destruct (for_each_raises one_asset (a :: l) x Hsel Hx archive) as [e He].
  destruct (for_each one_asset (a :: l) archive) as [[ys|e'] a2];
    cbn in He; [discriminate|].
  exists e'. reflexivity.
Qed.

Lemma export_raises_with_asset scan_row export_ide :
  (exists e, fst (export_asset (ExportUtils.scan_id (scan scan_row)) []) = Raises e) ->
  exists e, fst (export scan_row export_ide) = Raises e.
Proof.
  intros [e He]. unfold export_scan, bindx.
  destruct (export_asset (ExportUtils.scan_id (scan scan_row)) []) as [[u|e'] a1];
    cbn in He; [discriminate|].
  exists e'. reflexivity.
Qed.

(** X21. An asset row of the scan whose type is none of the six the export
    knows makes the whole export fail: [export_scan] raises and returns no
    archive, whatever else the scan holds. *)
Theorem unknown_asset_type_aborts_export
  (scan_row : ScanRow) (export_ide : bool) (x : AssetRow) :
  In x (assets db) ->
  asset_scan_id x = Some (ExportUtils.scan_id (scan scan_row)) ->
  known_type (type x) = false ->
  exists e, fst (export scan_row export_ide) = Raises e.
Proof.
  intros Hin Hid Hk. apply export_raises_with_asset.
  apply (export_asset_raises _ x Hin Hid). intros archive.
  exists (NotImplementedError ""). unfold export_one_asset.
  unfold known_type in Hk. cbn [existsb] in Hk.
  repeat (apply orb_false_iff in Hk as [? Hk]).
  repeat match goal with
         | H : String.eqb _ _ = false |- _ => rewrite H; clear H
         end.
  reflexivity.
Qed.

(** X22. An [android_file] or [ios_file] row of the scan whose path is set
    but not on disk makes the whole export fail: [export_scan] raises and
    returns no archive. *)
Theorem missing_upload_aborts_export
  (scan_row : ScanRow) (export_ide : bool) (x : AssetRow) (p : string) :
  In x (assets db) ->
  asset_scan_id x = Some (ExportUtils.scan_id (scan scan_row)) ->
  is_file_type (type x) = true ->
  asset_path x = Some p -> files !! p = None ->
  exists e, fst (export scan_row export_ide) = Raises e.
Proof.
  intros Hin Hid Hk Hp Hf. apply export_raises_with_asset.
  apply (export_asset_raises _ x Hin Hid). intros archive.
  unfold export_one_asset, export_file_asset. rewrite Hp, Hf.
  unfold is_file_type in Hk.
  destruct (String.eqb (type x) "android_file"); [eexists; reflexivity|].
  cbn [orb] in Hk. rewrite Hk. eexists; reflexivity.
Qed.

(** X23. [export_scan] with [export_ide] set never returns an archive: it
    raises, and whenever the same export without [export_ide] returns an
    archive (the three parts were written without error), it raises
    [NotImplementedError], with that archive built and given up. *)
Theorem export_ide_never_returns (scan_row : ScanRow) :
  (exists e, fst (export scan_row true) = Raises e)
  /\ (forall archive,
        fst (export scan_row false) = Returns archive ->
        export scan_row true = (Raises (NotImplementedError ""), archive)).
Proof.
  unfold export_scan, bindx.
  destruct (export_asset _ []) as [[u|e] a1];
    [|split; [eexists; reflexivity|discriminate]].
  destruct (export_scan_json scan_row a1) as [[u'|e] a2];
    [|split; [eexists; reflexivity|discriminate]].
  destruct (export_vulnz _ a2) as [[u''|e] a3];
    [|split; [eexists; reflexivity|discriminate]].
  split; [eexists; reflexivity|].
  intros archive [= <-]. reflexivity.
Qed.

(** *** The members of an archive *)



(** *** The rating of the scan and the ratings of its vulnerabilities *)

Lemma rank_of_lower_name r :
  rank_of_text (lower (ExportUtils.name r)) = Some (ExportUtils.rank r).
Proof. destruct r; reflexivity. Qed.

Lemma rating_field_of_entry v :
  rating_field (vulnerability_entry db v)
  = Some (lower (ExportUtils.name (ExportUtils.risk_rating (vuln v)))).
Proof. reflexivity. Qed.

Lemma reported_by_row v id :
  In v (vulnerabilities db) -> ExportUtils.vuln_scan_id (vuln v) = id ->
  In (ExportUtils.risk_rating (vuln v))
     (ExportUtils.reported_ratings (rating_tables db) id).
Proof.
  intros Hin Hid. unfold ExportUtils.reported_ratings, ExportUtils.scan_vulnerabilities.
  apply in_map. apply list_elem_of_In, list_elem_of_filter. split; [exact Hid|].
  apply list_elem_of_In. cbn. now apply in_map.
Qed.

(** X25. When the scan is in the table, [_export_scan] writes [scan.json]
    with a risk rating that no vulnerability of the scan exceeds: every entry
    [_export_vulnz] writes for the scan carries a rating text whose rank is at
    most the rank of the rating text of the scan. *)
Theorem exported_rating_bounds_vulnerabilities
  (scan_row : ScanRow) (archive : Archive) :
  ExportUtils.keeps_ratings distinct ->
  ExportUtilsData.has_scan (rating_tables db) (ExportUtils.scan_id (scan scan_row)) ->
  exists risk_rating scan_dict,
    export_scan_json scan_row archive
    = (Returns tt, archive ++ [(SCAN_JSON, Text (json_dumps scan_dict))])
    /\ rating_field scan_dict = Some risk_rating
    /\ forall v,
         In v (vulnerabilities db) ->
         ExportUtils.vuln_scan_id (vuln v) = ExportUtils.scan_id (scan scan_row) ->
         exists t rank_v rank_scan,
           rating_field (vulnerability_entry db v) = Some t
           /\ rank_of_text t = Some rank_v
           /\ rank_of_text risk_rating = Some rank_scan
           /\ rank_v <= rank_scan.
Proof.
  intros Hd Hs. set (id := ExportUtils.scan_id (scan scan_row)) in *.
  unfold _export_scan. fold id.
  destruct (ExportUtils.reported_ratings (rating_tables db) id) as [|r0 rs] eqn:E.
  - rewrite (ExportUtilsSpec.compute_risk_rating_none distinct Hd _ _ E).
    eexists. eexists. split; [reflexivity|]. split; [reflexivity|].
    intros v Hin Hid. pose proof (reported_by_row v id Hin Hid) as Hr.
    rewrite E in Hr. destruct Hr.
  - destruct (ExportUtilsSpec.compute_risk_rating_some distinct Hd
                (rating_tables db) id Hs) as (r & Hr & _ & Hmax);
      [rewrite E; discriminate|].
    rewrite Hr. eexists. eexists. split; [reflexivity|]. split; [reflexivity|].
    intros v Hin Hid.
    exists (lower (ExportUtils.name (ExportUtils.risk_rating (vuln v)))),
           (ExportUtils.rank (ExportUtils.risk_rating (vuln v))),
           (ExportUtils.rank r).
    split; [apply rating_field_of_entry|].
    split; [apply rank_of_lower_name|]. split; [apply rank_of_lower_name|].
    apply Hmax. now apply reported_by_row.
Qed.

End Archive.

Lemma unknown_asset_type_aborts_export_witness :
  exists e,
    fst (export_scan ExportUtils.distinct_rows sample_dumps (fun p => p)
           (fun _ => "1970-01-01 00:00:00") OxoData.no_ip ∅ sample_db
           (sample_scan 2) false)
    = Raises e.
Proof.
  apply (unknown_asset_type_aborts_export ExportUtils.distinct_rows sample_dumps
           (fun p => p) (fun _ => "1970-01-01 00:00:00") OxoData.no_ip ∅
           sample_db (sample_scan 2) false
           {| asset_id := 2; asset_scan_id := Some 2; type := "domain";
              asset_path := None; asset_package_name := None;
              asset_bundle_id := None; asset_application_name := None |}).
  - right. left. reflexivity.
  - reflexivity.
  - reflexivity.
Defined.

Lemma missing_upload_aborts_export_witness :
  exists e,
    fst (export_scan ExportUtils.distinct_rows sample_dumps (fun p => p)
           (fun _ => "1970-01-01 00:00:00") OxoData.no_ip ∅ upload_db
           (sample_scan 1) false)
    = Raises e.
Proof.
  apply (missing_upload_aborts_export ExportUtils.distinct_rows sample_dumps
           (fun p => p) (fun _ => "1970-01-01 00:00:00") OxoData.no_ip ∅
           upload_db (sample_scan 1) false
           {| asset_id := 1; asset_scan_id := Some 1; type := "ios_file";
              asset_path := Some "/uploads/ios_u"; asset_package_name := None;
              asset_bundle_id := Some "a.b.c"; asset_application_name := None |}
           "/uploads/ios_u").
  - left. reflexivity.
  - reflexivity.
  - reflexivity.
  - reflexivity.
  - reflexivity.
Defined.

Lemma export_ide_never_returns_witness :
  export_scan ExportUtils.distinct_rows sample_dumps (fun p => p)
    (fun _ => "1970-01-01 00:00:00") OxoData.no_ip ∅ sample_db (sample_scan 1) true
  = (Raises (NotImplementedError ""),
     [ (ASSET_JSON, Text "{4 keys}"); (SCAN_JSON, Text "{4 keys}");
       (VULNERABILITY_JSON, Text "[2 items]") ]).
Proof.
  apply (export_ide_never_returns ExportUtils.distinct_rows sample_dumps
           (fun p => p) (fun _ => "1970-01-01 00:00:00") OxoData.no_ip ∅
           sample_db (sample_scan 1)).
  reflexivity.
Defined.


Lemma exported_rating_bounds_vulnerabilities_witness :
  exists risk_rating scan_dict,
    _export_scan ExportUtils.distinct_rows sample_dumps
      (fun _ => "1970-01-01 00:00:00") sample_db (sample_scan 1) []
    = (Returns tt, [] ++ [(SCAN_JSON, Text (sample_dumps scan_dict))])
    /\ rating_field scan_dict = Some risk_rating.
Proof.
  destruct (exported_rating_bounds_vulnerabilities ExportUtils.distinct_rows
              sample_dumps (fun _ => "1970-01-01 00:00:00") sample_db
              (sample_scan 1) [])
    as (risk_rating & scan_dict & Hrun & Hfield & _).
  - exact ExportUtilsSpec.distinct_rows_keeps.
  - eexists. split; [left; reflexivity|reflexivity].
  - exists risk_rating, scan_dict. split; [exact Hrun|exact Hfield].
Defined.

End ExportArchiveMore.
